(** * MCP Script Runner: executor, configuration manager and tool handlers

    A shallow embedding of [src/mcp_script_runner/config.py],
    [executor.py] and [server.py].  Python code that can raise lives in
    a state-and-exception monad over a [World] that holds the
    configuration manager, the file system facts the code consults, the
    behaviour of child processes and the trace of process-level
    actions. *)

From Stdlib Require Import ZArith NArith String Ascii DecimalString Floats.
From Stdlib.Strings Require Import Byte.
From stdpp Require Import gmap strings list.

Local Open Scope Z_scope.

(** ** Python values, exceptions and text *)

Module Py.

(** Python [str] values are kept as their UTF-8 bytes in a [string]. *)

(** The exceptions that reach the code under study.  All of them derive
    from [Exception].  [TimeoutError] is [asyncio.TimeoutError], which
    from Python 3.11 on is the builtin [TimeoutError]: the subclass of
    [OSError] that a system call failing with [ETIMEDOUT] raises. *)
Inductive exn : Type :=
| TimeoutError
| ValueError (msg : string)
| TypeError (msg : string)
| OSError (msg : string)
| UnicodeDecodeError (msg : string)
| ValidationError (model : string) (errors : list (string * string)).

(** [str(n)] for an [int]. *)
Definition str_int (z : Z) : string := NilZero.string_of_int (Z.to_int z).

(** [sep.join(xs)] *)
Fixpoint join (sep : string) (xs : list string) : string :=
  match xs with
  | [] => ""
  | [x] => x
  | x :: rest => x +:+ sep +:+ join sep rest
  end.

Definition newline : string := String (ascii_of_nat 10) EmptyString.
Definition dquote : string := String (ascii_of_nat 34) EmptyString.

(** [str(e)].  A pydantic [ValidationError] (a [ValueError]) carries the
    model name and, per failed field, its location and message; it
    prints a count line and two lines per error. *)
Definition str_exn (e : exn) : string :=
  match e with
  | TimeoutError => ""
  | ValueError m | TypeError m | OSError m | UnicodeDecodeError m => m
  | ValidationError model errors =>
    str_int (Z.of_nat (length errors)) +:+ " validation error"
    +:+ (if Nat.eqb (length errors) 1 then "" else "s") +:+ " for " +:+ model
    +:+ newline
    +:+ join newline
          (map (fun le => fst le +:+ newline +:+ "  " +:+ snd le
                          +:+ " (type=value_error)") errors)
  end.

Definition is_TimeoutError (e : exn) : bool :=
  match e with TimeoutError => true | _ => false end.

(** Outcome of evaluating a Python expression or statement. *)
Inductive result (A : Type) : Type :=
| Ret (a : A)
| Raise (e : exn).
Arguments Ret {A} a.
Arguments Raise {A} e.

(** The values a tool call carries for the parameters the tools declare
    ([script_name], [path]: string; [arguments]: array of strings),
    and [None]. *)
Inductive value : Type :=
| PNone
| PStr (s : string)
| PList (l : list string).

(** Truth value testing, as used by [not x] and [x or y]. *)
Definition truthy (v : value) : bool :=
  match v with
  | PNone => false
  | PStr s => negb (String.eqb s "")
  | PList l => match l with [] => false | _ :: _ => true end
  end.

Definition str_truthy (s : string) : bool := negb (String.eqb s "").

(** [str(b)] for a [bool], as an f-string prints it. *)
Definition str_bool (b : bool) : string := if b then "True" else "False".

(** [n / d] rounded to the nearest integer, ties to even. *)
Definition round_half_even (n d : Z) : Z :=
  let q := n / d in
  let r := n mod d in
  if 2 * r <? d then q
  else if d <? 2 * r then q + 1
  else if Z.even q then q else q + 1.

Definition two_digits (n : Z) : string :=
  if n <? 10 then "0" +:+ str_int n else str_int n.

(** The hundredths in [m * 2 ^ e], correctly rounded. *)
Definition hundredths (m : positive) (e : Z) : Z :=
  if 0 <=? e then Z.pos m * 2 ^ e * 100
  else round_half_even (Z.pos m * 100) (2 ^ (- e)).

(** [f"{x:.2f}"] for a [float], a binary64 number: the exact value of
    [x] is rounded to two decimals, ties to even. *)
Definition format_2f (x : float) : string :=
  match Prim2SF x with
  | S754_nan => "nan"
  | S754_infinity s => if s then "-inf" else "inf"
  | S754_zero s => if s then "-0.00" else "0.00"
  | S754_finite s m e =>
    let n := hundredths m e in
    (if s then "-" else "") +:+ str_int (n / 100) +:+ "." +:+ two_digits (n mod 100)
  end.

End Py.

(** ** [bytes.decode('utf-8')], error handler [strict] *)

Module Utf8.
Import Py.

Local Open Scope N_scope.

Definition is_continuation (b : N) : bool := (128 <=? b) && (b <? 192).

(** What the decoder finds at the head of the remaining input. *)
Inductive step : Type :=
| Consumed (n : nat)            (* a well-formed sequence of [n] bytes *)
| UnexpectedEnd                 (* the input stops inside a sequence *)
| InvalidStart                  (* the first byte cannot start a sequence *)
| InvalidContinuation (k : nat) (* the byte at offset [k] is not a continuation *).

Definition scan_one (s : list N) : step :=
  match s with
  | [] => Consumed 0
  | ch :: r =>
    if ch <? 128 then Consumed 1
    else if ch <? 224 then
      if ch <? 194 then InvalidStart
      else match r with
           | [] => UnexpectedEnd
           | ch2 :: _ => if is_continuation ch2 then Consumed 2
                         else InvalidContinuation 1
           end
    else if ch <? 240 then
      match r with
      | [] => UnexpectedEnd
      | ch2 :: r2 =>
        if negb (is_continuation ch2)
           || (if ch2 <? 160 then ch =? 224 else ch =? 237)
        then InvalidContinuation 1
        else match r2 with
             | [] => UnexpectedEnd
             | ch3 :: _ => if is_continuation ch3 then Consumed 3
                           else InvalidContinuation 2
             end
      end
    else if ch <? 245 then
      match r with
      | [] => UnexpectedEnd
      | ch2 :: r2 =>
        if negb (is_continuation ch2)
           || (if ch2 <? 144 then ch =? 240 else ch =? 244)
        then InvalidContinuation 1
        else match r2 with
             | [] => UnexpectedEnd
             | ch3 :: r3 =>
               if negb (is_continuation ch3) then InvalidContinuation 2
               else match r3 with
                    | [] => UnexpectedEnd
                    | ch4 :: _ => if is_continuation ch4 then Consumed 4
                                  else InvalidContinuation 3
                    end
             end
      end
    else InvalidStart
  end.

(** A decoding error: the offending slice [start, stop) and the reason. *)
Record decode_error : Type :=
  { err_start : nat; err_stop : nat; err_reason : string }.

(** Scan the whole input; [pos] is the offset of [s] in the original
    data.  Every [Consumed] step with input left removes at least one
    byte, so [length s] rounds of fuel suffice. *)
Fixpoint scan (fuel : nat) (s : list N) (pos : nat) : option decode_error :=
  match fuel with
  | O => None
  | S fuel' =>
    match s with
    | [] => None
    | _ :: _ =>
      match scan_one s with
      | Consumed n => scan fuel' (drop n s) (pos + n)%nat
      | UnexpectedEnd =>
        Some {| err_start := pos; err_stop := (pos + length s)%nat;
                err_reason := "unexpected end of data" |}
      | InvalidStart =>
        Some {| err_start := pos; err_stop := S pos;
                err_reason := "invalid start byte" |}
      | InvalidContinuation k =>
        Some {| err_start := pos; err_stop := (pos + k)%nat;
                err_reason := "invalid continuation byte" |}
      end
    end
  end.

Definition hex_digit (n : N) : string :=
  match n with
  | 0 => "0" | 1 => "1" | 2 => "2" | 3 => "3" | 4 => "4" | 5 => "5"
  | 6 => "6" | 7 => "7" | 8 => "8" | 9 => "9" | 10 => "a" | 11 => "b"
  | 12 => "c" | 13 => "d" | 14 => "e" | _ => "f"
  end.

Definition hex_byte (b : N) : string := hex_digit (b / 16) +:+ hex_digit (b mod 16).

(** [str(e)] of the [UnicodeDecodeError] for an error on [data]. *)
Definition error_text (data : list N) (e : decode_error) : string :=
  if Nat.eqb (err_stop e) (S (err_start e)) then
    "'utf-8' codec can't decode byte 0x" +:+ hex_byte (nth (err_start e) data 0)
    +:+ " in position " +:+ str_int (Z.of_nat (err_start e))
    +:+ ": " +:+ err_reason e
  else
    "'utf-8' codec can't decode bytes in position "
    +:+ str_int (Z.of_nat (err_start e)) +:+ "-"
    +:+ str_int (Z.of_nat (err_stop e) - 1) +:+ ": " +:+ err_reason e.

Definition valid (data : list byte) : bool :=
  match scan (length data) (map Byte.to_N data) 0 with
  | None => true
  | Some _ => false
  end.

(** [data.decode('utf-8')] *)
Definition decode (data : list byte) : result string :=
  let ns := map Byte.to_N data in
  match scan (length data) ns 0 with
  | None => Ret (string_of_list_byte data)
  | Some e => Raise (UnicodeDecodeError (error_text ns e))
  end.

End Utf8.

(** ** Python [dict] with [str] keys, in insertion order *)

Module Dict.

Definition t (A : Type) : Type := list (string * A).

Fixpoint get {A} (d : t A) (k : string) : option A :=
  match d with
  | [] => None
  | (k', v) :: rest => if String.eqb k' k then Some v else get rest k
  end.

(** [d[k] = v]: an existing key keeps its place, a new key goes last. *)
Fixpoint set {A} (d : t A) (k : string) (v : A) : t A :=
  match d with
  | [] => [(k, v)]
  | (k', v') :: rest =>
    if String.eqb k' k then (k', v) :: rest else (k', v') :: set rest k v
  end.

Definition keys {A} (d : t A) : list string := map fst d.
Definition values {A} (d : t A) : list A := map snd d.

(** The dict built from the members of a JSON object, read in order. *)
Definition of_items {A} (items : list (string * A)) : t A :=
  fold_left (fun d kv => set d (fst kv) (snd kv)) items [].

(** Keys are pairwise distinct. *)
Definition wf {A} (d : t A) : Prop := List.NoDup (keys d).

End Dict.

(** ** config.py *)

Module ScriptConfig.
Record t : Type := mk
  { name : string;
    path : string;
    description : string;
    arguments : list string;
    working_directory : option string;
    timeout : Z }.
End ScriptConfig.

Module MCPConfig.
Record t : Type := mk
  { working_directory : string;
    scripts : Dict.t ScriptConfig.t;
    docker_image : string;
    container_name : string;
    mount_path : string }.
End MCPConfig.

(** The configuration file as it is written: a field the JSON object
    leaves out is [None] here and takes its declared default.  The
    members of [scripts] are listed as written, with their own defaults
    filled in; where a key is written twice [json.load] keeps the last
    member. *)
Record config_data : Type :=
  { cd_working_directory : option string;
    cd_scripts : list (string * ScriptConfig.t);
    cd_docker_image : option string;
    cd_container_name : option string;
    cd_mount_path : option string }.

(** What is stored at [config_path]. *)
Inductive file_content : Type :=
| Unreadable (e : Py.exn)      (* [open], [json.load] or the typing of the fields raises [e] *)
| ConfigJson (d : config_data).

Record ConfigManager : Type :=
  { config_path : string;
    _config : option MCPConfig.t }.

(** ** The world the server runs in *)

(** What [process.communicate()] under [asyncio.wait_for] does, and the
    [process.returncode] seen right afterwards. *)
Inductive comm_outcome : Type :=
| CommDone (stdout_data stderr_data : list byte) (returncode : option Z)
| CommRaise (e : Py.exn) (returncode : option Z).

(** What [asyncio.create_subprocess_exec] does: it raises, or yields a
    process whose [communicate] depends on the time-out granted. *)
Inductive spawn_outcome : Type :=
| SpawnRaise (e : Py.exn)
| SpawnOk (communicate : Z -> comm_outcome).

(** Actions on child processes, in the order they are issued. *)
Inductive event : Type :=
| Spawn (argv : list string) (cwd : string)   (* exec of [argv], no shell *)
| Communicate (timeout : Z)
| Terminate                                   (* [process.terminate()] *)
| Kill                                        (* [process.kill()] *)
| Wait.                                       (* [process.wait()] *)

Record World : Type :=
  { path_exists : string -> bool;       (* [os.path.exists] *)
    path_resolve : string -> Py.result string; (* [str(Path(p).resolve())] *)
    config_file : option file_content;  (* the file at [config_path], if any *)
    write_error : option Py.exn;        (* what opening [config_path] for writing raises *)
    processes : list string -> string -> spawn_outcome;
    clock : nat -> float;               (* successive readings of [time.time()] *)
    ticks : nat;                        (* readings taken so far *)
    trace : list event;
    manager : ConfigManager }.          (* the global [config_manager] *)

Definition M (A : Type) : Type := World -> Py.result A * World.

Definition ret {A} (a : A) : M A := fun w => (Py.Ret a, w).
Definition raise {A} (e : Py.exn) : M A := fun w => (Py.Raise e, w).
Definition bind {A B} (m : M A) (k : A -> M B) : M B :=
  fun w => match m w with
           | (Py.Ret a, w') => k a w'
           | (Py.Raise e, w') => (Py.Raise e, w')
           end.
(** [try: body  except Exception as e: handler(e)] *)
Definition try_except {A} (body : M A) (handler : Py.exn -> M A) : M A :=
  fun w => match body w with
           | (Py.Ret a, w') => (Py.Ret a, w')
           | (Py.Raise e, w') => handler e w'
           end.
Definition lift {A} (r : Py.result A) : M A := fun w => (r, w).
(** Run [m] and hand its outcome, raised or returned, to the continuation. *)
Definition attempt {A} (m : M A) : M (Py.result A) :=
  fun w => let (r, w') := m w in (Py.Ret r, w').

Notation "'let*' x ':=' m 'in' k" := (bind m (fun x => k))
  (at level 10, x pattern, m at level 100, k at level 200).
Notation "m ';;' k" := (bind m (fun _ => k))
  (at level 100, k at level 200, right associativity).

Definition set_trace (w : World) (t : list event) : World :=
  {| path_exists := path_exists w; path_resolve := path_resolve w;
     config_file := config_file w; write_error := write_error w;
     processes := processes w;
     clock := clock w; ticks := ticks w; trace := t; manager := manager w |}.
Definition set_ticks (w : World) (n : nat) : World :=
  {| path_exists := path_exists w; path_resolve := path_resolve w;
     config_file := config_file w; write_error := write_error w;
     processes := processes w;
     clock := clock w; ticks := n; trace := trace w; manager := manager w |}.
Definition set_config_file (w : World) (f : option file_content) : World :=
  {| path_exists := path_exists w; path_resolve := path_resolve w;
     config_file := f; write_error := write_error w;
     processes := processes w;
     clock := clock w; ticks := ticks w; trace := trace w; manager := manager w |}.
Definition set_manager (w : World) (m : ConfigManager) : World :=
  {| path_exists := path_exists w; path_resolve := path_resolve w;
     config_file := config_file w; write_error := write_error w;
     processes := processes w;
     clock := clock w; ticks := ticks w; trace := trace w; manager := m |}.

Definition emit (e : event) : M unit := fun w => (Py.Ret tt, set_trace w (trace w ++ [e])).
(** [time.time()] *)
Definition time_time : M float :=
  fun w => (Py.Ret (clock w (ticks w)), set_ticks w (S (ticks w))).
(** [os.path.exists(p)] *)
Definition os_path_exists (p : string) : M bool := fun w => (Py.Ret (path_exists w p), w).

Module config.
Import Py.

(** [ScriptConfig.validate_path] *)
Definition validate_path (v : string) : M string :=
  let* found := os_path_exists v in
  if found then ret v
  else raise (ValueError ("Script path does not exist: " +:+ v)).

(** [MCPConfig.validate_working_directory] *)
Definition validate_working_directory (v : string) : M string :=
  let* found := os_path_exists v in
  if found then ret v
  else raise (ValueError ("Working directory does not exist: " +:+ v)).

(** pydantic runs a field's validator and records what it raises under
    the field's location. *)
Definition field_errors (loc : string) (validator : M string) : M (list (string * string)) :=
  try_except (validator ;; ret []) (fun e => ret [(loc, str_exn e)]).

Fixpoint scripts_errors (items : list (string * ScriptConfig.t)) : M (list (string * string)) :=
  match items with
  | [] => ret []
  | (k, sc) :: rest =>
    let* here := field_errors ("scripts -> " +:+ k +:+ " -> path")
                              (validate_path (ScriptConfig.path sc)) in
    let* there := scripts_errors rest in
    ret (here ++ there)
  end.

(** The [MCPConfig] constructor on the dictionary [json.load] made of
    the file: a given [working_directory] and the [path] of every script
    in the dictionary are validated (a default is not), then the
    failures, if any, are raised together. *)
Definition MCPConfig_init (kw : config_data) : M MCPConfig.t :=
  let* wd_errors :=
    match cd_working_directory kw with
    | Some v => field_errors "working_directory" (validate_working_directory v)
    | None => ret []
    end in
  let* sc_errors := scripts_errors (Dict.of_items (cd_scripts kw)) in
  match wd_errors ++ sc_errors with
  | [] =>
    ret (MCPConfig.mk
           (default "." (cd_working_directory kw))
           (Dict.of_items (cd_scripts kw))
           (default "ubuntu:22.04" (cd_docker_image kw))
           (default "mcp-script-runner" (cd_container_name kw))
           (default "/workspace" (cd_mount_path kw)))
  | errors => raise (ValidationError "MCPConfig" errors)
  end.

Definition set__config (c : option MCPConfig.t) : M unit :=
  fun w => (Ret tt, set_manager w {| config_path := config_path (manager w); _config := c |}).

(** The content [_save_default_config] dumps. *)
Definition default_config : config_data :=
  {| cd_working_directory := Some ".";
     cd_scripts :=
       [("hello",
         ScriptConfig.mk "hello" "./scripts/hello.sh" "Simple hello world script"
                         [] None 30)];
     cd_docker_image := Some "ubuntu:22.04";
     cd_container_name := Some "mcp-script-runner";
     cd_mount_path := Some "/workspace" |}.

(** Opening the file for writing may raise; otherwise the default
    content is dumped. *)
Definition _save_default_config : M unit :=
  fun w =>
    match write_error w with
    | Some e => (Raise e, w)
    | None => (Ret tt, set_config_file w (Some (ConfigJson default_config)))
    end.

Definition read_json (content : file_content) : M config_data :=
  match content with
  | Unreadable e => raise e
  | ConfigJson d => ret d
  end.

Definition load_config : M MCPConfig.t :=
  fun w =>
    match config_file w with
    | Some content =>
      try_except
        (let* config_data := read_json content in
         let* c := MCPConfig_init config_data in
         set__config (Some c) ;;
         ret c)
        (fun e => raise (ValueError ("Failed to load configuration: " +:+ str_exn e)))
        w
    | None =>
      (let* c := MCPConfig_init
                   {| cd_working_directory := Some ".";
                      cd_scripts := [];
                      cd_docker_image := Some "ubuntu:22.04";
                      cd_container_name := Some "mcp-script-runner";
                      cd_mount_path := Some "/workspace" |} in
       set__config (Some c) ;;
       _save_default_config ;;
       ret c) w
    end.

Definition reload_config : M MCPConfig.t :=
  set__config None ;;
  load_config.

(** The [config] property. *)
Definition config : M MCPConfig.t :=
  fun w =>
    match _config (manager w) with
    | None => load_config w
    | Some c => (Ret c, w)
    end.

(** [self.config.scripts.get(script_name)]; a list cannot be hashed. *)
Definition get_script_config (script_name : value) : M (option ScriptConfig.t) :=
  let* c := config in
  match script_name with
  | PStr s => ret (Dict.get (MCPConfig.scripts c) s)
  | PNone => ret None
  | PList _ => raise (TypeError "unhashable type: 'list'")
  end.

Definition list_scripts : M (list string) :=
  let* c := config in
  ret (Dict.keys (MCPConfig.scripts c)).

End config.

(** ** executor.py *)

Module executor.
Import Py.

Record ScriptExecutionResult : Type :=
  { exit_code : Z;
    stdout : string;
    stderr : string;
    execution_time : float;
    script_name : string }.

(** The [success] property. *)
Definition success (r : ScriptExecutionResult) : bool := exit_code r =? 0.

(** [asyncio.create_subprocess_exec] on the unpacked list [argv], with
    piped [stdout] and [stderr] and the given [cwd]: [argv] is handed to
    the operating system as it is, no shell in between. *)
Definition create_subprocess_exec (argv : list string) (cwd : string)
  : M (Z -> comm_outcome) :=
  emit (Spawn argv cwd) ;;
  fun w => match processes w argv cwd with
           | SpawnRaise e => (Raise e, w)
           | SpawnOk communicate => (Ret communicate, w)
           end.

(** [str(Path(p).resolve())]; resolving may raise. *)
Definition Path_resolve (p : string) : M string :=
  fun w => (path_resolve w p, w).

(** [[...] + arguments] *)
Definition list_add (l : list string) (arguments : value) : M (list string) :=
  match arguments with
  | PList a => ret (l ++ a)
  | PStr _ =>
    raise (TypeError ("can only concatenate list (not " +:+ dquote +:+ "str"
                      +:+ dquote +:+ ") to list"))
  | PNone =>
    raise (TypeError ("can only concatenate list (not " +:+ dquote +:+ "NoneType"
                      +:+ dquote +:+ ") to list"))
  end.

(** [process.returncode or 0] *)
Definition returncode_or_0 (returncode : option Z) : Z := default 0 returncode.

(** The two [except] clauses of [_execute_script_config].  [process] is
    [None] while nothing was spawned; afterwards it holds the current
    [process.returncode]. *)
Definition except_TimeoutError (script_config : ScriptConfig.t) (start_time : float)
    (process : option (option Z)) : M ScriptExecutionResult :=
  let* now := time_time in
  let execution_time := (now - start_time)%float in
  (* Kill the process if it's still running *)
  (match process with
   | Some None => emit Kill ;; emit Wait
   | _ => ret tt
   end) ;;
  ret {| exit_code := 124;
         stdout := "";
         stderr := "Script execution timed out after "
                   +:+ str_int (ScriptConfig.timeout script_config) +:+ " seconds";
         execution_time := execution_time;
         script_name := ScriptConfig.name script_config |}.

Definition except_Exception (script_config : ScriptConfig.t) (start_time : float)
    (e : exn) : M ScriptExecutionResult :=
  let* now := time_time in
  let execution_time := (now - start_time)%float in
  ret {| exit_code := 1;
         stdout := "";
         stderr := "Error executing script: " +:+ str_exn e;
         execution_time := execution_time;
         script_name := ScriptConfig.name script_config |}.

Definition handlers (script_config : ScriptConfig.t) (start_time : float)
    (process : option (option Z)) (e : exn) : M ScriptExecutionResult :=
  if is_TimeoutError e then except_TimeoutError script_config start_time process
  else except_Exception script_config start_time e.

(** The part of the [try] body that follows a completed [communicate]. *)
Definition completed (script_config : ScriptConfig.t) (start_time : float)
    (stdout_data stderr_data : list byte) (returncode : option Z)
  : M ScriptExecutionResult :=
  let* now := time_time in
  let execution_time := (now - start_time)%float in
  let* out := lift (Utf8.decode stdout_data) in
  let* err := lift (Utf8.decode stderr_data) in
  ret {| exit_code := returncode_or_0 returncode;
         stdout := out;
         stderr := err;
         execution_time := execution_time;
         script_name := ScriptConfig.name script_config |}.

(** [script_config.working_directory or self.config_manager.config.working_directory] *)
Definition working_dir_of (script_config : ScriptConfig.t) : M string :=
  match ScriptConfig.working_directory script_config with
  | Some d =>
    if str_truthy d then ret d
    else let* c := config.config in ret (MCPConfig.working_directory c)
  | None => let* c := config.config in ret (MCPConfig.working_directory c)
  end.

Definition _execute_script_config (script_config : ScriptConfig.t) (arguments : value)
  : M ScriptExecutionResult :=
  let* start_time := time_time in
  (* Prepare command *)
  let* cmd := list_add ["bash"; ScriptConfig.path script_config] arguments in
  (* Determine working directory *)
  let* working_dir := working_dir_of script_config in
  let* working_dir_path := Path_resolve working_dir in
  (* try: *)
  let* spawned := attempt (create_subprocess_exec cmd working_dir_path) in
  match spawned with
  | Raise e => handlers script_config start_time None e
  | Ret communicate =>
    (* Wait for completion with timeout *)
    emit (Communicate (ScriptConfig.timeout script_config)) ;;
    match communicate (ScriptConfig.timeout script_config) with
    | CommRaise e returncode => handlers script_config start_time (Some returncode) e
    | CommDone stdout_data stderr_data returncode =>
      try_except
        (completed script_config start_time stdout_data stderr_data returncode)
        (handlers script_config start_time (Some returncode))
    end
  end.

(** [arguments or []] *)
Definition or_empty_list (arguments : value) : value :=
  if truthy arguments then arguments else PList [].

Definition execute_script (script_name : value) (arguments : value)
  : M ScriptExecutionResult :=
  let* script_config := config.get_script_config script_name in
  match script_config with
  | None =>
    (* the lookup has raised for a list, so [script_name] is a string or [None] *)
    raise (ValueError ("Script not found: "
                       +:+ match script_name with PStr s => s | _ => "None" end))
  | Some sc => _execute_script_config sc (or_empty_list arguments)
  end.

(** The dictionaries [list_available_scripts] and [get_script_info] build. *)
Record script_entry : Type :=
  { e_name : string;
    e_description : string;
    e_path : string;
    e_arguments : list string;
    e_timeout : Z }.

Record script_info : Type :=
  { i_name : string;
    i_description : string;
    i_path : string;
    i_arguments : list string;
    i_timeout : Z;
    i_working_directory : option string }.

Definition entry_of (sc : ScriptConfig.t) : script_entry :=
  {| e_name := ScriptConfig.name sc;
     e_description := ScriptConfig.description sc;
     e_path := ScriptConfig.path sc;
     e_arguments := ScriptConfig.arguments sc;
     e_timeout := ScriptConfig.timeout sc |}.

(** The loop of [list_available_scripts] over the names still to visit. *)
Fixpoint collect_scripts (names : list string) (scripts : list script_entry)
  : M (list script_entry) :=
  match names with
  | [] => ret scripts
  | script_name :: rest =>
    let* script_config := config.get_script_config (PStr script_name) in
    match script_config with
    | Some sc => collect_scripts rest (scripts ++ [entry_of sc])
    | None => collect_scripts rest scripts
    end
  end.

Definition list_available_scripts : M (list script_entry) :=
  let* names := config.list_scripts in
  collect_scripts names [].

Definition get_script_info (script_name : value) : M (option script_info) :=
  let* script_config := config.get_script_config script_name in
  match script_config with
  | None => ret None
  | Some sc =>
    ret (Some {| i_name := ScriptConfig.name sc;
                 i_description := ScriptConfig.description sc;
                 i_path := ScriptConfig.path sc;
                 i_arguments := ScriptConfig.arguments sc;
                 i_timeout := ScriptConfig.timeout sc;
                 i_working_directory := ScriptConfig.working_directory sc |})
  end.

End executor.

(** ** server.py *)

(** A tool as [list_tools] advertises it: its name, its description and
    the JSON schema of its input, an object schema with the declared
    properties and, when the key is present, the required ones. *)
Module Tool.
Record property : Type :=
  { p_type : string;
    p_items : option string;      (* the [type] of the [items], for an array *)
    p_description : string }.
Record schema : Type :=
  { s_type : string;
    properties : list (string * property);
    required : option (list string) }.
Record t : Type := mk
  { name : string;
    description : string;
    inputSchema : schema }.
End Tool.

Module server.
Import Py.

Record TextContent : Type := { type : string; text : string }.

Definition Text (s : string) : TextContent := {| type := "text"; text := s |}.

Definition list_tools : list Tool.t :=
  [ Tool.mk "run_script" "Execute a configured bash script"
      {| Tool.s_type := "object";
         Tool.properties :=
           [ ("script_name",
              {| Tool.p_type := "string"; Tool.p_items := None;
                 Tool.p_description := "Name of the script to execute" |});
             ("arguments",
              {| Tool.p_type := "array"; Tool.p_items := Some "string";
                 Tool.p_description := "Arguments to pass to the script" |}) ];
         Tool.required := Some ["script_name"] |};
    Tool.mk "list_scripts" "List all available scripts"
      {| Tool.s_type := "object"; Tool.properties := []; Tool.required := None |};
    Tool.mk "get_script_info" "Get detailed information about a specific script"
      {| Tool.s_type := "object";
         Tool.properties :=
           [ ("script_name",
              {| Tool.p_type := "string"; Tool.p_items := None;
                 Tool.p_description := "Name of the script to get info for" |}) ];
         Tool.required := Some ["script_name"] |};
    Tool.mk "get_working_directory" "Get the current working directory"
      {| Tool.s_type := "object"; Tool.properties := []; Tool.required := None |};
    Tool.mk "set_working_directory" "Set the working directory for script execution"
      {| Tool.s_type := "object";
         Tool.properties :=
           [ ("path",
              {| Tool.p_type := "string"; Tool.p_items := None;
                 Tool.p_description := "Path to set as working directory" |}) ];
         Tool.required := Some ["path"] |};
    Tool.mk "reload_config" "Reload configuration from file"
      {| Tool.s_type := "object"; Tool.properties := []; Tool.required := None |} ].

(** [', '.join(xs) if xs else 'None'] *)
Definition arguments_text (xs : list string) : string :=
  match xs with
  | [] => "None"
  | _ :: _ => join ", " xs
  end.

Definition handle_run_script (arguments : gmap string value) : M (list TextContent) :=
  let script_name := default PNone (arguments !! "script_name") in
  let script_arguments := default (PList []) (arguments !! "arguments") in
  if negb (truthy script_name) then
    ret [Text "Error: script_name is required"]
  else
    try_except
      (let* result := executor.execute_script script_name script_arguments in
       (* Format output *)
       let output_lines :=
         [ "Script: " +:+ executor.script_name result;
           "Exit Code: " +:+ str_int (executor.exit_code result);
           "Execution Time: " +:+ format_2f (executor.execution_time result) +:+ "s";
           "Success: " +:+ str_bool (executor.success result);
           "";
           "STDOUT:";
           executor.stdout result;
           "";
           "STDERR:";
           executor.stderr result ] in
       ret [Text (join newline output_lines)])
      (fun e => ret [Text ("Error executing script: " +:+ str_exn e)]).

(** The lines one script adds to the listing. *)
Definition script_lines (script : executor.script_entry) : list string :=
  [ "Name: " +:+ executor.e_name script;
    "Description: " +:+ executor.e_description script;
    "Path: " +:+ executor.e_path script;
    "Arguments: " +:+ arguments_text (executor.e_arguments script);
    "Timeout: " +:+ str_int (executor.e_timeout script) +:+ "s";
    "" ].

(** The [for] loop of [handle_list_scripts]: [output_lines.extend] per script. *)
Fixpoint extend_all (output_lines : list string) (scripts : list executor.script_entry)
  : list string :=
  match scripts with
  | [] => output_lines
  | script :: rest => extend_all (output_lines ++ script_lines script) rest
  end.

Definition handle_list_scripts (arguments : gmap string value) : M (list TextContent) :=
  try_except
    (let* scripts := executor.list_available_scripts in
     match scripts with
     | [] => ret [Text "No scripts configured"]
     | _ :: _ =>
       let output_lines := extend_all ["Available Scripts:"; ""] scripts in
       ret [Text (join newline output_lines)]
     end)
    (fun e => ret [Text ("Error listing scripts: " +:+ str_exn e)]).

Definition handle_get_script_info (arguments : gmap string value) : M (list TextContent) :=
  let script_name := default PNone (arguments !! "script_name") in
  if negb (truthy script_name) then
    ret [Text "Error: script_name is required"]
  else
    try_except
      (let* script_info := executor.get_script_info script_name in
       (* a truthy [script_name] that passed the lookup is a string *)
       let shown := match script_name with PStr s => s | _ => "None" end in
       match script_info with
       | None => ret [Text ("Script not found: " +:+ shown)]
       | Some info =>
         let output_lines :=
           [ "Script Information: " +:+ shown;
             "";
             "Name: " +:+ executor.i_name info;
             "Description: " +:+ executor.i_description info;
             "Path: " +:+ executor.i_path info;
             "Arguments: " +:+ arguments_text (executor.i_arguments info);
             "Timeout: " +:+ str_int (executor.i_timeout info) +:+ "s";
             "Working Directory: "
             +:+ match executor.i_working_directory info with
                 | Some d => if str_truthy d then d else "Default"
                 | None => "Default"
                 end ] in
         ret [Text (join newline output_lines)]
       end)
      (fun e => ret [Text ("Error getting script info: " +:+ str_exn e)]).

Definition handle_get_working_directory (arguments : gmap string value)
  : M (list TextContent) :=
  try_except
    (let* c := config.config in
     let working_dir := MCPConfig.working_directory c in
     ret [Text ("Current working directory: " +:+ working_dir)])
    (fun e => ret [Text ("Error getting working directory: " +:+ str_exn e)]).

(** [config_manager.config.working_directory = path]: the object the
    [config] property yields is the one the manager holds. *)
Definition assign_working_directory (path : string) : M unit :=
  let* c := config.config in
  config.set__config
    (Some (MCPConfig.mk path (MCPConfig.scripts c) (MCPConfig.docker_image c)
                        (MCPConfig.container_name c) (MCPConfig.mount_path c))).

Definition handle_set_working_directory (arguments : gmap string value)
  : M (list TextContent) :=
  let path := default PNone (arguments !! "path") in
  if negb (truthy path) then
    ret [Text "Error: path is required"]
  else
    try_except
      (match path with
       | PStr p =>
         let* found := os_path_exists p in
         if negb found then
           ret [Text ("Error: Directory does not exist: " +:+ p)]
         else
           assign_working_directory p ;;
           ret [Text ("Working directory set to: " +:+ p)]
       | _ =>
         raise (TypeError
                  "stat: path should be string, bytes, os.PathLike or integer, not list")
       end)
      (fun e => ret [Text ("Error setting working directory: " +:+ str_exn e)]).

(** The new [ScriptExecutor] wraps the same [config_manager]; it holds
    no state of its own. *)
Definition handle_reload_config (arguments : gmap string value) : M (list TextContent) :=
  try_except
    (config.reload_config ;;
     ret [Text "Configuration reloaded successfully"])
    (fun e => ret [Text ("Error reloading configuration: " +:+ str_exn e)]).

Definition call_tool (name : string) (arguments : gmap string value)
  : M (list TextContent) :=
  try_except
    (if String.eqb name "run_script" then handle_run_script arguments
     else if String.eqb name "list_scripts" then handle_list_scripts arguments
     else if String.eqb name "get_script_info" then handle_get_script_info arguments
     else if String.eqb name "get_working_directory" then
       handle_get_working_directory arguments
     else if String.eqb name "set_working_directory" then
       handle_set_working_directory arguments
     else if String.eqb name "reload_config" then handle_reload_config arguments
     else ret [Text ("Unknown tool: " +:+ name)])
    (fun e => ret [Text ("Error: " +:+ str_exn e)]).

(** Modelled from the spec: the kinds of protocol error a response can
    carry (the dispatcher that builds responses is not among the
    sources). *)
Inductive error_kind : Type := InvalidParams | MethodNotFound | InternalError.

(** Modelled from the spec: a response (the dispatcher is not among the
    sources): a normal successful one with its content, or a protocol
    error. *)
Inductive response : Type :=
| Result (content : list TextContent)
| Error (kind : error_kind) (message : string).

(** Modelled from the spec: the envelope the dispatcher (not among the
    sources) puts around a tool call.  What [call_tool] returns is the
    content of a normal successful response; only a failure escaping it
    becomes a generic protocol error carrying the failure text. *)
Definition respond (r : result (list TextContent)) : response :=
  match r with
  | Ret content => Result content
  | Raise e => Error InternalError (str_exn e)
  end.

(** Modelled from the spec: one tool call as the dispatcher (not among
    the sources) serves it. *)
Definition tools_call (name : string) (arguments : gmap string value)
  : World -> response * World :=
  fun w => let (r, w') := call_tool name arguments w in (respond r, w').

(** Modelled from the spec: whether a response is a protocol error. *)
Definition is_protocol_error (r : response) : bool :=
  match r with Error _ _ => true | Result _ => false end.

End server.

(** * Vocabulary of the statements *)

Module Outcome.
Import Py executor.

(** The directory a script runs in, given the loaded configuration. *)
Definition effective_working_dir (sc : ScriptConfig.t) (c : MCPConfig.t) : string :=
  match ScriptConfig.working_directory sc with
  | Some d => if str_truthy d then d else MCPConfig.working_directory c
  | None => MCPConfig.working_directory c
  end.

(** The argv and the directory of the child a run spawns. *)
Definition argv_of (sc : ScriptConfig.t) (args : list string) : list string :=
  "bash" :: ScriptConfig.path sc :: args.

(** What resolving that directory gives: the absolute path, or the
    exception raised. *)
Definition cwd_of (w : World) (sc : ScriptConfig.t) (c : MCPConfig.t) : result string :=
  path_resolve w (effective_working_dir sc c).

(** The result the time-out clause builds. *)
Definition timed_out_result (sc : ScriptConfig.t) (r : ScriptExecutionResult) : Prop :=
  exit_code r = 124 /\ success r = false /\ stdout r = "" /\
  stderr r = "Script execution timed out after "
             +:+ str_int (ScriptConfig.timeout sc) +:+ " seconds".

(** The result the catch-all clause builds for [e]. *)
Definition failed_result (e : exn) (r : ScriptExecutionResult) : Prop :=
  exit_code r = 1 /\ success r = false /\ stdout r = "" /\
  stderr r = "Error executing script: " +:+ str_exn e.

Definition handled (sc : ScriptConfig.t) (e : exn) (r : ScriptExecutionResult) : Prop :=
  if is_TimeoutError e then timed_out_result sc r else failed_result e r.

(** What the clauses do to the process after [e] was raised. *)
Definition cleanup_events (e : exn) (returncode : option Z) : list event :=
  if is_TimeoutError e then
    match returncode with None => [Kill; Wait] | Some _ => [] end
  else [].

(** A completed child: what the [try] body and, on a decoding error,
    the catch-all clause yield. *)
Definition completed_result (stdout_data stderr_data : list byte)
    (returncode : option Z) (r : ScriptExecutionResult) : Prop :=
  match Utf8.decode stdout_data with
  | Raise e => failed_result e r
  | Ret out =>
    match Utf8.decode stderr_data with
    | Raise e => failed_result e r
    | Ret err =>
      exit_code r = returncode_or_0 returncode /\ stdout r = out /\ stderr r = err
    end
  end.

(** What one run does, by the behaviour of the child process. *)
Definition run_outcome (sc : ScriptConfig.t) (w : World) (cmd : list string)
    (cwd : string) (r : ScriptExecutionResult) (events : list event) : Prop :=
  match processes w cmd cwd with
  | SpawnRaise e => events = [Spawn cmd cwd] /\ handled sc e r
  | SpawnOk communicate =>
    match communicate (ScriptConfig.timeout sc) with
    | CommRaise e returncode =>
      events = Spawn cmd cwd :: Communicate (ScriptConfig.timeout sc)
               :: cleanup_events e returncode /\
      handled sc e r
    | CommDone stdout_data stderr_data returncode =>
      events = [Spawn cmd cwd; Communicate (ScriptConfig.timeout sc)] /\
      completed_result stdout_data stderr_data returncode r
    end
  end.

Definition is_Spawn (ev : event) : bool :=
  match ev with Spawn _ _ => true | _ => false end.


(** The working directory the configuration file gives, ["."] when it
    gives none. *)
Definition file_working_directory (w : World) : string :=
  match config_file w with
  | Some (ConfigJson d) => default "." (cd_working_directory d)
  | _ => "."
  end.

(** The lines of the block that describes [sc]. *)
Definition block_of (sc : ScriptConfig.t) : list string :=
  [ "Name: " +:+ ScriptConfig.name sc;
    "Description: " +:+ ScriptConfig.description sc;
    "Path: " +:+ ScriptConfig.path sc;
    "Arguments: " +:+ match ScriptConfig.arguments sc with
                      | [] => "None"
                      | _ :: _ => join ", " (ScriptConfig.arguments sc)
                      end;
    "Timeout: " +:+ str_int (ScriptConfig.timeout sc) +:+ "s";
    "" ].

(** The six tool names [call_tool] tells apart. *)
Definition tool_names : list string :=
  [ "run_script"; "list_scripts"; "get_script_info";
    "get_working_directory"; "set_working_directory"; "reload_config" ].

End Outcome.

(** * A sample installation *)

Module Sample.
Import Py.

Definition hello : ScriptConfig.t :=
  ScriptConfig.mk "hello" "./scripts/hello.sh" "Say hello" ["who"] None 30.
Definition slow : ScriptConfig.t :=
  ScriptConfig.mk "slow" "./scripts/slow.sh" "" [] (Some "/tmp") 2.
Definition binary : ScriptConfig.t :=
  ScriptConfig.mk "binary" "./scripts/binary.sh" "Emits a lone 0xff byte" [] None 5.
Definition locked : ScriptConfig.t :=
  ScriptConfig.mk "locked" "./scripts/locked.sh" "" [] None 5.

(** A directory name with a NUL byte in it, and a script configured to
    run there. *)
Definition nul_dir : string := "a" +:+ String (ascii_of_nat 0) "b".
Definition lost : ScriptConfig.t :=
  ScriptConfig.mk "lost" "./scripts/lost.sh" "" [] (Some nul_dir) 5.


Definition file : config_data :=
  {| cd_working_directory := Some "/srv";
     cd_scripts := [("hello", hello); ("slow", slow);
                    ("binary", binary); ("locked", locked)];
     cd_docker_image := None;
     cd_container_name := None;
     cd_mount_path := None |}.

Definition loaded : MCPConfig.t :=
  MCPConfig.mk "/srv" (Dict.of_items (cd_scripts file))
               "ubuntu:22.04" "mcp-script-runner" "/workspace".

(** [hello] prints [hi] and exits with 0; [slow] never finishes in
    time; [binary] prints the byte 0xff and exits with 0; the spawn of
    [stalled] times out; nothing else can be executed. *)
Definition behaviour (argv : list string) (cwd : string) : spawn_outcome :=
  match argv with
  | _ :: "./scripts/hello.sh" :: _ =>
    SpawnOk (fun _ => CommDone [x68; x69] [] (Some 0))
  | _ :: "./scripts/slow.sh" :: _ =>
    SpawnOk (fun _ => CommRaise TimeoutError None)
  | _ :: "./scripts/binary.sh" :: _ =>
    SpawnOk (fun _ => CommDone [xff] [] (Some 0))
  | _ :: "./scripts/stalled.sh" :: _ => SpawnRaise TimeoutError
  | _ => SpawnRaise (OSError "[Errno 13] Permission denied: 'bash'")
  end.

Definition world : World :=
  {| path_exists := fun p => negb (String.eqb p "/nowhere");
     path_resolve := fun p =>
       if String.eqb p nul_dir then Raise (ValueError "embedded null byte")
       else Ret (if String.eqb p "." then "/srv" else p);
     config_file := Some (ConfigJson file);
     write_error := None;
     processes := behaviour;
     clock := fun n =>
       match n with
       | O => 100.25%float
       | S O => 101.75%float
       | S (S O) => 102.5%float
       | _ => 103%float
       end;
     ticks := 0;
     trace := [];
     manager := {| config_path := ".mcp-config.json"; _config := Some loaded |} |}.

(** The same installation with no script configured. *)
Definition empty_world : World :=
  set_manager world
    {| config_path := ".mcp-config.json";
       _config := Some (MCPConfig.mk "/srv" [] "ubuntu:22.04"
                                     "mcp-script-runner" "/workspace") |}.

(** The same installation before anything was loaded. *)
Definition fresh_world : World :=
  set_manager world {| config_path := ".mcp-config.json"; _config := None |}.

(** [set_working_directory] to [/tmp], and then [reload_config]. *)
Definition override : gmap string value := {[ "path" := PStr "/tmp" ]}.
Definition overridden_world : World :=
  snd (server.tools_call "set_working_directory" override world).
Definition reloaded_world : World :=
  snd (server.tools_call "reload_config" ∅ overridden_world).

(** Calls that give the empty string for the required parameter. *)
Definition empty_name : gmap string value := {[ "script_name" := PStr "" ]}.
Definition empty_path : gmap string value := {[ "path" := PStr "" ]}.

End Sample.

(** * Further vocabulary *)

Module Loading.
Import Py.

(** What the validators of [MCPConfig] accept: a given working
    directory exists, and so does the path of every script in the
    dictionary read from the file. *)
Definition config_valid (w : World) (d : config_data) : bool :=
  match cd_working_directory d with
  | Some v => path_exists w v
  | None => true
  end
  && forallb (fun kv => path_exists w (ScriptConfig.path (snd kv)))
             (Dict.of_items (cd_scripts d)).

(** The configuration object built from accepted keyword arguments. *)
Definition config_of (d : config_data) : MCPConfig.t :=
  MCPConfig.mk (default "." (cd_working_directory d))
               (Dict.of_items (cd_scripts d))
               (default "ubuntu:22.04" (cd_docker_image d))
               (default "mcp-script-runner" (cd_container_name d))
               (default "/workspace" (cd_mount_path d)).

(** The manager of [w] holding [c]. *)
Definition holding (w : World) (c : option MCPConfig.t) : World :=
  set_manager w {| config_path := config_path (manager w); _config := c |}.

(** [c] after [c.working_directory = path]. *)
Definition with_working_directory (c : MCPConfig.t) (path : string) : MCPConfig.t :=
  MCPConfig.mk path (MCPConfig.scripts c) (MCPConfig.docker_image c)
               (MCPConfig.container_name c) (MCPConfig.mount_path c).

(** The configuration a first start without a file keeps in memory. *)
Definition bare_config : MCPConfig.t :=
  MCPConfig.mk "." [] "ubuntu:22.04" "mcp-script-runner" "/workspace".

End Loading.

Module Shape.
Import Py server.

(** A computation that, when it returns, returns one text. *)
Definition one_text (m : M (list TextContent)) : Prop :=
  forall w, (exists t w', m w = (Ret [Text t], w')) \/ (exists e w', m w = (Raise e, w')).

Definition always_one_text (m : M (list TextContent)) : Prop :=
  forall w, exists t w', m w = (Ret [Text t], w').

(** A computation that, whenever it returns, returns one text that
    satisfies [P]. *)
Definition answers (P : string -> Prop) (m : M (list TextContent)) : Prop :=
  forall w r w', m w = (Ret r, w') -> exists t, r = [Text t] /\ P t.

Definition first_char (s : string) : option ascii :=
  match s with
  | EmptyString => None
  | String c _ => Some c
  end.

(** No answer of a handler starts like the answer to an unknown tool. *)
Definition handled_text (t : string) : Prop := first_char t <> Some "U"%char.

(** The names [list_tools] advertises. *)
Definition advertised_names : list string := map Tool.name list_tools.



(** The child completed, and its output is not valid UTF-8. *)
Definition output_undecodable (sc : ScriptConfig.t) (w : World)
    (argv : list string) (cwd : string) : bool :=
  match processes w argv cwd with
  | SpawnRaise _ => false
  | SpawnOk communicate =>
    match communicate (ScriptConfig.timeout sc) with
    | CommDone stdout_data stderr_data _ =>
      negb (Utf8.valid stdout_data && Utf8.valid stderr_data)
    | CommRaise _ _ => false
    end
  end.

(** The events of [events] that spawn a process. *)
Definition spawns (events : list event) : list event :=
  List.filter (fun ev => Outcome.is_Spawn ev) events.

(** The text [get_script_info] gives for a registered script, asked
    for under [shown]. *)
Definition info_text (shown : string) (sc : ScriptConfig.t) : string :=
  join newline
    [ "Script Information: " +:+ shown;
      "";
      "Name: " +:+ ScriptConfig.name sc;
      "Description: " +:+ ScriptConfig.description sc;
      "Path: " +:+ ScriptConfig.path sc;
      "Arguments: " +:+ match ScriptConfig.arguments sc with
                        | [] => "None"
                        | _ :: _ => join ", " (ScriptConfig.arguments sc)
                        end;
      "Timeout: " +:+ str_int (ScriptConfig.timeout sc) +:+ "s";
      "Working Directory: "
      +:+ match ScriptConfig.working_directory sc with
          | Some d => if String.eqb d "" then "Default" else d
          | None => "Default"
          end ].

End Shape.

(** * Further sample installations *)

Module Scenario.
Import Py.

(** The configuration file holds text that is not JSON. *)
Definition corrupt_world : World :=
  set_config_file Sample.fresh_world
    (Some (Unreadable (ValueError "Expecting value: line 1 column 1 (char 0)"))).

(** A loaded installation whose file was corrupted afterwards. *)
Definition corrupted_later : World :=
  set_config_file Sample.world
    (Some (Unreadable (ValueError "Expecting value: line 1 column 1 (char 0)"))).

(** A first start: no configuration file yet. *)
Definition first_start : World :=
  set_config_file Sample.fresh_world None.

(** A first start where the configuration file cannot be written. *)
Definition read_only_start : World :=
  {| path_exists := path_exists first_start;
     path_resolve := path_resolve first_start;
     config_file := None;
     write_error := Some (OSError "[Errno 13] Permission denied: '.mcp-config.json'");
     processes := processes first_start;
     clock := clock first_start;
     ticks := ticks first_start;
     trace := trace first_start;
     manager := manager first_start |}.

(** A file that declares [hello] twice, first with a path that does not
    exist. *)
Definition shadowed_file : config_data :=
  {| cd_working_directory := None;
     cd_scripts :=
       [("hello", ScriptConfig.mk "hello" "/nowhere" "" [] None 300);
        ("hello", Sample.hello)];
     cd_docker_image := None;
     cd_container_name := None;
     cd_mount_path := None |}.

Definition shadowed_world : World :=
  set_config_file Sample.fresh_world (Some (ConfigJson shadowed_file)).

End Scenario.

(** * Properties *)

(** ** The configuration manager *)

Section ConfigFacts.
Import Py.

Lemma config_loaded w c :
  _config (manager w) = Some c -> config.config w = (Ret c, w).
Proof. intros H. unfold config.config. now rewrite H. Qed.

End ConfigFacts.

(** ** The executor *)

Section ExecutorFacts.
Import Py executor Outcome.

Lemma working_dir_of_loaded sc w c :
  _config (manager w) = Some c ->
  working_dir_of sc w = (Ret (effective_working_dir sc c), w).
Proof.
  intros Hc. unfold working_dir_of, effective_working_dir.
  destruct (ScriptConfig.working_directory sc) as [d|];
    [destruct (str_truthy d)|]; try reflexivity;
    unfold bind; now rewrite (config_loaded _ _ Hc).
Qed.

Lemma handlers_spec sc start process e w :
  exists r w',
    handlers sc start process e w = (Ret r, w') /\
    script_name r = ScriptConfig.name sc /\
    manager w' = manager w /\ config_file w' = config_file w /\
    handled sc e r /\
    trace w' = trace w ++
               match process with
               | Some returncode => cleanup_events e returncode
               | None => []
               end.
Proof.
  unfold handlers, handled, cleanup_events.
  destruct (is_TimeoutError e).
  - unfold except_TimeoutError, bind, time_time, ret.
    destruct process as [[rc|]|]; cbn.
    all: eexists; eexists; split; [reflexivity|]; cbn.
    all: repeat split; try reflexivity; try (now rewrite app_nil_r).
    now rewrite <- app_assoc.
  - unfold except_Exception, bind, time_time, ret; cbn.
    eexists; eexists; split; [reflexivity|]; cbn.
    repeat split; try reflexivity. destruct process; now rewrite app_nil_r.
Qed.

Lemma decode_error_not_timeout data e :
  Utf8.decode data = Raise e -> is_TimeoutError e = false.
Proof.
  unfold Utf8.decode. destruct (Utf8.scan _ _ _); intros H; inversion H.
  reflexivity.
Qed.

Lemma completed_spec sc start o e rc w :
  exists r w',
    try_except (completed sc start o e rc) (handlers sc start (Some rc)) w = (Ret r, w') /\
    script_name r = ScriptConfig.name sc /\
    manager w' = manager w /\ config_file w' = config_file w /\
    trace w' = trace w /\
    completed_result o e rc r.
Proof.
  unfold try_except, completed, completed_result, bind, time_time, lift, ret.
  destruct (Utf8.decode o) as [so|x] eqn:Ho.
  - destruct (Utf8.decode e) as [se|x] eqn:He.
    + eexists; eexists; split; [reflexivity|]. cbn. repeat split; reflexivity.
    + destruct (handlers_spec sc start (Some rc) x (set_ticks w (S (ticks w))))
        as (r & w' & Hr & Hn & Hm & Hf & Hh & Ht).
      exists r, w'. split; [exact Hr|].
      unfold handled, cleanup_events in *.
      rewrite (decode_error_not_timeout _ _ He) in *.
      cbn in *. rewrite app_nil_r in Ht. repeat split; assumption || apply Hh.
  - destruct (handlers_spec sc start (Some rc) x (set_ticks w (S (ticks w))))
      as (r & w' & Hr & Hn & Hm & Hf & Hh & Ht).
    exists r, w'. split; [exact Hr|].
    unfold handled, cleanup_events in *.
    rewrite (decode_error_not_timeout _ _ Ho) in *.
    cbn in *. rewrite app_nil_r in Ht. repeat split; assumption || apply Hh.
Qed.

Lemma execute_script_config_spec sc args w c cwd :
  _config (manager w) = Some c ->
  cwd_of w sc c = Ret cwd ->
  exists r w' events,
    _execute_script_config sc (PList args) w = (Ret r, w') /\
    script_name r = ScriptConfig.name sc /\
    manager w' = manager w /\ config_file w' = config_file w /\
    trace w' = trace w ++ events /\
    run_outcome sc w ("bash" :: ScriptConfig.path sc :: args) cwd r events.
Proof.
  intros Hc Hcwd. unfold _execute_script_config, run_outcome.
  unfold bind at 1. unfold time_time at 1.
  unfold bind at 1. unfold list_add, ret at 1.
  unfold bind at 1.
  rewrite (working_dir_of_loaded sc (set_ticks w (S (ticks w))) c Hc).
  unfold bind at 1. unfold Path_resolve at 1.
  cbn [path_resolve set_ticks]. unfold cwd_of in Hcwd. rewrite Hcwd.
  unfold bind at 1. unfold attempt, create_subprocess_exec, bind at 1, emit.
  cbn [processes set_trace set_ticks path_resolve trace app].
  set (cmd := "bash" :: ScriptConfig.path sc :: args).
  destruct (processes w cmd cwd) as [e|communicate].
  - destruct (handlers_spec sc (clock w (ticks w)) None e
                (set_trace (set_ticks w (S (ticks w))) (trace w ++ [Spawn cmd cwd])))
      as (r & w' & Hr & Hn & Hm & Hf & Hh & Ht).
    exists r, w', [Spawn cmd cwd]. rewrite Hr. cbn in *.
    rewrite app_nil_r in Ht. repeat split; first [assumption | reflexivity].
  - unfold bind at 1, emit. cbn [trace set_trace].
    destruct (communicate (ScriptConfig.timeout sc)) as [o e rc|e rc].
    + edestruct (completed_spec sc (clock w (ticks w)) o e rc)
        as (r & w' & Hr & Hn & Hm & Hf & Ht & Hh).
      exists r, w', [Spawn cmd cwd; Communicate (ScriptConfig.timeout sc)].
      rewrite Hr. cbn in *. rewrite <- !app_assoc in Ht. cbn in Ht.
      repeat split; first [assumption | reflexivity].
    + edestruct (handlers_spec sc (clock w (ticks w)) (Some rc) e)
        as (r & w' & Hr & Hn & Hm & Hf & Hh & Ht).
      exists r, w', (Spawn cmd cwd :: Communicate (ScriptConfig.timeout sc)
                     :: cleanup_events e rc).
      rewrite Hr. cbn in *. rewrite <- !app_assoc in Ht. cbn in Ht.
      repeat split; first [assumption | reflexivity].
Qed.

(** When resolving the working directory raises, so does the run:
    the call sits before the [try]. *)
Lemma execute_script_config_unresolved sc args w c e :
  _config (manager w) = Some c ->
  cwd_of w sc c = Raise e ->
  _execute_script_config sc (PList args) w = (Raise e, set_ticks w (S (ticks w))).
Proof.
  intros Hc Hcwd. unfold _execute_script_config.
  unfold bind at 1. unfold time_time at 1.
  unfold bind at 1. unfold list_add, ret at 1.
  unfold bind at 1.
  rewrite (working_dir_of_loaded sc (set_ticks w (S (ticks w))) c Hc).
  unfold bind at 1. unfold Path_resolve at 1.
  cbn [path_resolve set_ticks]. unfold cwd_of in Hcwd. now rewrite Hcwd.
Qed.

End ExecutorFacts.

(** ** Loading the configuration *)

Section LoadFacts.
Import Py config.

(** Building a configuration consults the file system and changes nothing. *)
Lemma field_errors_pure loc (validator : M string) w :
  (forall w0, snd (validator w0) = w0) ->
  exists errors, field_errors loc validator w = (Ret errors, w).
Proof.
  intros Hv. unfold field_errors, try_except, bind, ret.
  specialize (Hv w). destruct (validator w) as [[v|e] w0]; cbn in Hv; subst; eauto.
Qed.

Lemma validate_path_pure v w : snd (validate_path v w) = w.
Proof.
  unfold validate_path, bind, os_path_exists, ret, raise.
  now destruct (path_exists w v).
Qed.

Lemma validate_working_directory_pure v w : snd (validate_working_directory v w) = w.
Proof.
  unfold validate_working_directory, bind, os_path_exists, ret, raise.
  now destruct (path_exists w v).
Qed.

Lemma scripts_errors_pure items w :
  exists errors, scripts_errors items w = (Ret errors, w).
Proof.
  induction items as [|[k sc] rest IH]; cbn.
  - now exists [].
  - destruct (field_errors_pure ("scripts -> " +:+ k +:+ " -> path")
                (validate_path (ScriptConfig.path sc)) w (validate_path_pure _))
      as [here Hh].
    destruct IH as [there Ht].
    exists (here ++ there). unfold bind. now rewrite Hh, Ht.
Qed.

(** The constructor either yields the configuration the arguments
    describe or raises; the world stays as it is. *)
Lemma MCPConfig_init_cases kw w :
  MCPConfig_init kw w
  = (Ret (MCPConfig.mk (default "." (cd_working_directory kw))
                       (Dict.of_items (cd_scripts kw))
                       (default "ubuntu:22.04" (cd_docker_image kw))
                       (default "mcp-script-runner" (cd_container_name kw))
                       (default "/workspace" (cd_mount_path kw))), w)
  \/ exists e, MCPConfig_init kw w = (Raise e, w).
Proof.
  assert (Hwd : exists errors,
             match cd_working_directory kw with
             | Some v => field_errors "working_directory" (validate_working_directory v)
             | None => ret []
             end w = (Ret errors, w)).
  { destruct (cd_working_directory kw) as [v|].
    - apply field_errors_pure, validate_working_directory_pure.
    - now exists []. }
  destruct Hwd as [e1 H1].
  destruct (scripts_errors_pure (Dict.of_items (cd_scripts kw)) w) as [e2 H2].
  unfold MCPConfig_init, bind. rewrite H1, H2.
  destruct (e1 ++ e2); [left; reflexivity|right; eexists; reflexivity].
Qed.

(** What a successful [load_config] leaves behind. *)
Lemma load_config_Ret w c w' :
  load_config w = (Ret c, w') ->
  manager w' = {| config_path := config_path (manager w); _config := Some c |} /\
  trace w' = trace w /\
  path_resolve w' = path_resolve w /\
  processes w' = processes w /\
  MCPConfig.working_directory c = Outcome.file_working_directory w' /\
  Outcome.file_working_directory w' = Outcome.file_working_directory w /\
  exists items, MCPConfig.scripts c = Dict.of_items items.
Proof.
  unfold load_config, Outcome.file_working_directory.
  destruct (config_file w) as [content|] eqn:Hfile.
  - destruct content as [e|d];
      cbv beta iota delta [try_except bind ret raise read_json].
    + discriminate.
    + destruct (MCPConfig_init_cases d w) as [H|[e H]]; rewrite H.
      * unfold set__config. intros E. inversion E; subst; clear E.
        cbn. rewrite Hfile. repeat split; eauto.
      * discriminate.
  - cbv beta iota delta [bind ret].
    match goal with |- context [MCPConfig_init ?kw w] =>
      destruct (MCPConfig_init_cases kw w) as [H|[e H]]; rewrite H end.
    + unfold set__config, _save_default_config. cbn [write_error set_manager].
      destruct (write_error w); [discriminate|].
      intros E. inversion E; subst; clear E. cbn.
      repeat split; eauto. now exists [].
    + discriminate.
Qed.

(** A failed [load_config] changes nothing, with one exception: on a
    first start whose default file cannot be written the manager
    already holds the bare configuration when the write raises. *)
Lemma load_config_Raise w e w' :
  load_config w = (Raise e, w') ->
  w' = w \/
  (config_file w = None /\ path_exists w "." = true /\ write_error w = Some e /\
   w' = Loading.holding w (Some Loading.bare_config)).
Proof.
  unfold load_config.
  destruct (config_file w) as [content|].
  - destruct content as [x|d];
      cbv beta iota delta [try_except bind ret raise read_json].
    + intros E; inversion E. now left.
    + destruct (MCPConfig_init_cases d w) as [H|[x H]]; rewrite H.
      * unfold set__config. discriminate.
      * intros E; inversion E. now left.
  - cbv beta iota delta [bind ret].
    match goal with |- context [MCPConfig_init ?kw w] =>
      destruct (MCPConfig_init_cases kw w) as [H|[x H]] end.
    + assert (Hdot : path_exists w "." = true).
      { cbv beta iota delta [MCPConfig_init bind field_errors try_except
                               validate_working_directory os_path_exists ret raise
                               cd_working_directory cd_scripts Dict.of_items
                               fold_left scripts_errors app] in H.
        destruct (path_exists w "."); [reflexivity|discriminate]. }
      rewrite H. unfold set__config, _save_default_config. cbn [write_error set_manager].
      destruct (write_error w) as [x|] eqn:Hw; [|discriminate].
      intros E; inversion E; subst. right. repeat split; auto.
    + rewrite H. intros E; inversion E. now left.
Qed.

Lemma load_config_Raise_frame w e w' :
  load_config w = (Raise e, w') ->
  trace w' = trace w /\ config_file w' = config_file w /\
  path_exists w' = path_exists w.
Proof.
  intros H. apply load_config_Raise in H as [->|(_ & _ & _ & ->)]; auto.
Qed.

(** The [config] property yields the configuration the manager holds
    from then on, and spawns nothing. *)
Lemma config_Ret w c w' :
  config w = (Ret c, w') ->
  _config (manager w') = Some c /\ trace w' = trace w /\
  path_resolve w' = path_resolve w /\ processes w' = processes w.
Proof.
  unfold config. destruct (_config (manager w)) as [c0|] eqn:Hc.
  - intros E; inversion E; subst. auto.
  - intros H. apply load_config_Ret in H as (Hm & Ht & Hr & Hp & _).
    rewrite Hm. auto.
Qed.

Lemma config_Raise w e w' :
  config w = (Raise e, w') ->
  _config (manager w) = None /\
  (w' = w \/
   (config_file w = None /\ path_exists w "." = true /\ write_error w = Some e /\
    w' = Loading.holding w (Some Loading.bare_config))).
Proof.
  unfold config. destruct (_config (manager w)).
  - discriminate.
  - intros H. split; [reflexivity|]. now apply load_config_Raise.
Qed.

Lemma config_Raise_frame w e w' :
  config w = (Raise e, w') ->
  trace w' = trace w /\ config_file w' = config_file w /\
  path_exists w' = path_exists w.
Proof.
  intros H. apply config_Raise in H as (_ & [->|(_ & _ & _ & ->)]); auto.
Qed.

Lemma get_script_config_Ret name w o w' :
  get_script_config (PStr name) w = (Ret o, w') ->
  exists c, config w = (Ret c, w') /\ o = Dict.get (MCPConfig.scripts c) name.
Proof.
  unfold get_script_config, bind, ret.
  destruct (config w) as [[c|e] w0]; intros E; inversion E; subst. eauto.
Qed.

Lemma get_script_config_loaded name w c :
  _config (manager w) = Some c ->
  get_script_config (PStr name) w = (Ret (Dict.get (MCPConfig.scripts c) name), w).
Proof.
  intros Hc. unfold get_script_config, bind, ret. now rewrite (config_loaded _ _ Hc).
Qed.

End LoadFacts.

(** ** Dictionaries *)

Section DictFacts.
Context {A : Type}.

Lemma keys_set_In (d : Dict.t A) k v x :
  In x (Dict.keys (Dict.set d k v)) -> x = k \/ In x (Dict.keys d).
Proof.
  induction d as [|[k' v'] rest IH]; cbn.
  - intuition.
  - destruct (String.eqb k' k); cbn; intuition.
Qed.

Lemma set_wf (d : Dict.t A) k v : Dict.wf d -> Dict.wf (Dict.set d k v).
Proof.
  unfold Dict.wf. induction d as [|[k' v'] rest IH]; cbn; intros Hd.
  - repeat constructor. intros [].
  - inversion Hd as [|? ? Hnotin Hrest]; subst.
    destruct (String.eqb k' k) eqn:Hk; cbn.
    + now constructor.
    + constructor; [|now apply IH].
      intros Hin. apply keys_set_In in Hin as [->|Hin]; [|contradiction].
      now rewrite String.eqb_refl in Hk.
Qed.

Lemma of_items_wf (items : list (string * A)) : Dict.wf (Dict.of_items items).
Proof.
  unfold Dict.of_items.
  assert (H : forall d, Dict.wf d ->
            Dict.wf (fold_left (fun d kv => Dict.set d (fst kv) (snd kv)) items d)).
  { induction items as [|kv rest IH]; cbn; intros d Hd; [exact Hd|].
    apply IH, set_wf, Hd. }
  apply H. constructor.
Qed.

(** In a well-formed dictionary every listed item is the one its key finds. *)
Lemma get_In (d : Dict.t A) k v : Dict.wf d -> In (k, v) d -> Dict.get d k = Some v.
Proof.
  unfold Dict.wf. induction d as [|[k' v'] rest IH]; cbn; [tauto|].
  intros Hd Hin. inversion Hd as [|? ? Hnotin Hrest]; subst.
  destruct Hin as [E|Hin].
  - inversion E; subst. now rewrite String.eqb_refl.
  - destruct (String.eqb k' k) eqn:Hk.
    + apply String.eqb_eq in Hk; subst. exfalso. apply Hnotin.
      change k with (fst (k, v)). now apply in_map.
    + now apply IH.
Qed.

End DictFacts.

(** The registry a load produces is a well-formed dictionary. *)
Lemma loaded_registry_wf w c w' :
  config.load_config w = (Py.Ret c, w') -> Dict.wf (MCPConfig.scripts c).
Proof.
  intros H. apply load_config_Ret in H as (_ & _ & _ & _ & _ & _ & items & ->).
  apply of_items_wf.
Qed.

(** ** Claims about the executor *)

Section ExecutorClaims.
Import Py executor Outcome.

Lemma cleanup_events_no_Spawn e rc ev :
  In ev (cleanup_events e rc) -> is_Spawn ev = false.
Proof.
  unfold cleanup_events.
  destruct (is_TimeoutError e); [destruct rc|]; cbn; intuition (subst; reflexivity).
Qed.

(** One run spawns exactly one child, first of all, with the argv made
    of the interpreter, the script path and the arguments. *)
Lemma run_spawns_first sc args w c cwd :
  _config (manager w) = Some c ->
  cwd_of w sc c = Ret cwd ->
  exists r w' rest,
    _execute_script_config sc (PList args) w = (Ret r, w') /\
    trace w' = trace w ++ Spawn (argv_of sc args) cwd :: rest /\
    forallb (fun ev => negb (is_Spawn ev)) rest = true.
Proof.
  intros Hc Hcwd.
  destruct (execute_script_config_spec sc args w c cwd Hc Hcwd)
    as (r & w' & events & Hr & _ & _ & _ & Ht & Ho).
  unfold run_outcome in Ho. fold (argv_of sc args) in *.
  destruct (processes w _ _) as [e|communicate].
  - destruct Ho as [-> _]. exists r, w', []. auto.
  - destruct (communicate _) as [o e rc|e rc]; destruct Ho as [-> _].
    + exists r, w', [Communicate (ScriptConfig.timeout sc)]. auto.
    + exists r, w', (Communicate (ScriptConfig.timeout sc) :: cleanup_events e rc).
      repeat split; try assumption.
      cbn. apply forallb_forall. intros ev Hin.
      now rewrite (cleanup_events_no_Spawn _ _ _ Hin).
Qed.

Lemma or_empty_list_PList args : or_empty_list (PList args) = PList args.
Proof. now destruct args. Qed.

(** Started by name, a run is the run of the configuration the lookup finds. *)
Lemma execute_script_found name args w0 sc w :
  config.get_script_config (PStr name) w0 = (Ret (Some sc), w) ->
  execute_script (PStr name) (PList args) w0 = _execute_script_config sc (PList args) w
  /\ trace w = trace w0.
Proof.
  intros Hget. split.
  - unfold execute_script, bind. rewrite Hget. now rewrite or_empty_list_PList.
  - apply get_script_config_Ret in Hget as (c & Hc & _).
    now apply config_Ret in Hc.
Qed.

(** C1: the child's argv is the interpreter, the script path and then
    the caller's arguments, one token each and in order; it is handed
    to the exec primitive once, and nothing else is spawned, also when
    the run is started by name.  An argument full of shell
    metacharacters is one element of that list like any other. *)
Theorem argv_is_interpreter_path_arguments sc args w c cwd :
  _config (manager w) = Some c ->
  cwd_of w sc c = Ret cwd ->
  (exists r w' rest,
     _execute_script_config sc (PList args) w = (Ret r, w') /\
     trace w' = trace w ++ Spawn ("bash" :: ScriptConfig.path sc :: args) cwd :: rest /\
     forallb (fun ev => negb (is_Spawn ev)) rest = true) /\
  (forall name w0,
     config.get_script_config (PStr name) w0 = (Ret (Some sc), w) ->
     exists r w' rest,
       execute_script (PStr name) (PList args) w0 = (Ret r, w') /\
       trace w' = trace w0 ++ Spawn ("bash" :: ScriptConfig.path sc :: args) cwd
                  :: rest /\
       forallb (fun ev => negb (is_Spawn ev)) rest = true).
Proof.
  intros Hc Hcwd. split; [exact (run_spawns_first sc args w c cwd Hc Hcwd)|].
  intros name w0 Hget.
  destruct (execute_script_found name args w0 sc w Hget) as [-> <-].
  exact (run_spawns_first sc args w c cwd Hc Hcwd).
Qed.

Lemma argv_is_interpreter_path_arguments_witness :
  _config (manager Sample.world) = Some Sample.loaded /\
  cwd_of Sample.world Sample.hello Sample.loaded = Ret "/srv" /\
  exists r w' rest,
    _execute_script_config Sample.hello (PList ["; rm -rf /"]) Sample.world
    = (Ret r, w') /\
    trace w' = trace Sample.world
               ++ Spawn ["bash"; "./scripts/hello.sh"; "; rm -rf /"] "/srv" :: rest /\
    forallb (fun ev => negb (is_Spawn ev)) rest = true.
Proof.
  split; [reflexivity|]. split; [reflexivity|].
  exact (proj1 (argv_is_interpreter_path_arguments
                  Sample.hello ["; rm -rf /"] Sample.world Sample.loaded "/srv"
                  eq_refl eq_refl)).
Defined.







Lemma decode_valid data :
  Utf8.valid data = true -> Utf8.decode data = Ret (string_of_list_byte data).
Proof.
  unfold Utf8.valid, Utf8.decode. now destruct (Utf8.scan _ _ _).
Qed.





End ExecutorClaims.

(** ** Claims about the tool handlers *)

Section ServerClaims.
Import Py server Outcome.

Lemma tools_call_Ret name args w content w' :
  call_tool name args w = (Ret content, w') ->
  tools_call name args w = (Result content, w').
Proof. intros H. unfold tools_call. now rewrite H. Qed.

Lemma eqb_neq_false (a b : string) : a <> b -> String.eqb a b = false.
Proof. apply String.eqb_neq. Qed.

(** A required parameter that is absent or falsy: the handler answers
    at once and touches nothing. *)
Lemma run_script_requires_name (args : gmap string value) w :
  truthy (default PNone (args !! "script_name")) = false ->
  call_tool "run_script" args w = (Ret [Text "Error: script_name is required"], w).
Proof.
  intros H. unfold call_tool. cbn [String.eqb Ascii.eqb Bool.eqb].
  unfold try_except, handle_run_script. now rewrite H.
Qed.

Lemma get_script_info_requires_name (args : gmap string value) w :
  truthy (default PNone (args !! "script_name")) = false ->
  call_tool "get_script_info" args w = (Ret [Text "Error: script_name is required"], w).
Proof.
  intros H. unfold call_tool. cbn [String.eqb Ascii.eqb Bool.eqb].
  unfold try_except, handle_get_script_info. now rewrite H.
Qed.

Lemma set_working_directory_requires_path (args : gmap string value) w :
  truthy (default PNone (args !! "path")) = false ->
  call_tool "set_working_directory" args w = (Ret [Text "Error: path is required"], w).
Proof.
  intros H. unfold call_tool. cbn [String.eqb Ascii.eqb Bool.eqb].
  unfold try_except, handle_set_working_directory. now rewrite H.
Qed.

(** C5 as stated fails: a [run_script] call without [script_name] gets
    a normal response whose text names the problem, not an
    [InvalidParams] error. *)
Lemma missing_script_name_is_a_normal_response :
  (∅ : gmap string value) !! "script_name" = None /\
  tools_call "run_script" ∅ Sample.world
  = (Result [Text "Error: script_name is required"], Sample.world) /\
  is_protocol_error (fst (tools_call "run_script" ∅ Sample.world)) = false /\
  forall message,
    fst (tools_call "run_script" ∅ Sample.world) <> Error InvalidParams message.
Proof.
  split; [reflexivity|]. split; [reflexivity|]. split; [reflexivity|].
  intros message. discriminate.
Qed.

(** C5, amended: a [run_script] or [get_script_info] call without
    [script_name], and a [set_working_directory] call without [path],
    gets a normal successful response whose text says that the
    parameter is required; nothing else happens. *)
Theorem missing_parameter_response (args1 args2 : gmap string value) w :
  args1 !! "script_name" = None ->
  args2 !! "path" = None ->
  tools_call "run_script" args1 w
  = (Result [Text "Error: script_name is required"], w) /\
  tools_call "get_script_info" args1 w
  = (Result [Text "Error: script_name is required"], w) /\
  tools_call "set_working_directory" args2 w
  = (Result [Text "Error: path is required"], w).
Proof.
  intros H1 H2. repeat split; apply tools_call_Ret.
  - apply run_script_requires_name. now rewrite H1.
  - apply get_script_info_requires_name. now rewrite H1.
  - apply set_working_directory_requires_path. now rewrite H2.
Qed.

Lemma missing_parameter_response_witness :
  ({[ "arguments" := PList ["x"] ]} : gmap string value) !! "script_name" = None /\
  (∅ : gmap string value) !! "path" = None /\
  tools_call "run_script" {[ "arguments" := PList ["x"] ]} Sample.fresh_world
  = (Result [Text "Error: script_name is required"], Sample.fresh_world) /\
  tools_call "get_script_info" {[ "arguments" := PList ["x"] ]} Sample.fresh_world
  = (Result [Text "Error: script_name is required"], Sample.fresh_world) /\
  tools_call "set_working_directory" ∅ Sample.fresh_world
  = (Result [Text "Error: path is required"], Sample.fresh_world).
Proof.
  split; [reflexivity|]. split; [reflexivity|].
  exact (missing_parameter_response {[ "arguments" := PList ["x"] ]} ∅
           Sample.fresh_world eq_refl eq_refl).
Defined.

(** C6 as stated fails: a call of a tool that does not exist gets a
    normal response, not a [MethodNotFound] error. *)
Lemma unknown_tool_is_a_normal_response :
  ~ In "frobnicate" tool_names /\
  tools_call "frobnicate" ∅ Sample.world
  = (Result [Text "Unknown tool: frobnicate"], Sample.world) /\
  is_protocol_error (fst (tools_call "frobnicate" ∅ Sample.world)) = false /\
  forall message,
    fst (tools_call "frobnicate" ∅ Sample.world) <> Error MethodNotFound message.
Proof.
  split.
  { intros H. repeat (destruct H as [H|H]; [discriminate H|]). exact H. }
  split; [reflexivity|]. split; [reflexivity|].
  intros message. discriminate.
Qed.

(** C6, amended: a call whose name is none of the six tools gets a
    normal successful response whose text is "Unknown tool: " followed
    by the name, and leaves the world as it was. *)
Theorem unknown_tool_response name (args : gmap string value) w :
  ~ In name tool_names ->
  tools_call name args w = (Result [Text ("Unknown tool: " +:+ name)], w).
Proof.
  intros Hn. apply tools_call_Ret. unfold call_tool, try_except.
  unfold tool_names in Hn. cbn [In] in Hn.
  rewrite !eqb_neq_false by (intros ->; tauto).
  reflexivity.
Qed.

Lemma unknown_tool_response_witness :
  ~ In "run-script" tool_names /\
  tools_call "run-script" {[ "script_name" := PStr "hello" ]} Sample.world
  = (Result [Text "Unknown tool: run-script"], Sample.world).
Proof.
  assert (H : ~ In "run-script" tool_names).
  { intros H. repeat (destruct H as [H|H]; [discriminate H|]). exact H. }
  split; [exact H|].
  exact (unknown_tool_response "run-script" {[ "script_name" := PStr "hello" ]}
           Sample.world H).
Defined.

Lemma str_truthy_true s : s <> "" -> negb (String.eqb s "") = true.
Proof. intros H. now rewrite (eqb_neq_false _ _ H). Qed.

(** C7: a [run_script] call that names a script the registry does not
    hold gets a normal response whose text says that the script was not
    found, and no process is spawned. *)
Theorem unknown_script_is_reported_in_text (args : gmap string value) name w w1 :
  args !! "script_name" = Some (PStr name) ->
  name <> "" ->
  config.get_script_config (PStr name) w = (Ret None, w1) ->
  tools_call "run_script" args w
  = (Result [Text ("Error executing script: Script not found: " +:+ name)], w1) /\
  trace w1 = trace w.
Proof.
  intros Hname Hne Hget. split.
  - apply tools_call_Ret. unfold call_tool. cbn [String.eqb Ascii.eqb Bool.eqb].
    unfold try_except, handle_run_script.
    rewrite Hname. cbn [from_option id truthy]. rewrite (str_truthy_true _ Hne).
    cbv beta iota delta [negb try_except bind executor.execute_script].
    rewrite Hget. reflexivity.
  - apply get_script_config_Ret in Hget as (c & Hc & _).
    now apply config_Ret in Hc.
Qed.

Lemma unknown_script_is_reported_in_text_witness :
  ({[ "script_name" := PStr "deploy" ]} : gmap string value) !! "script_name"
  = Some (PStr "deploy") /\
  "deploy" <> "" /\
  config.get_script_config (PStr "deploy") Sample.world = (Ret None, Sample.world) /\
  tools_call "run_script" {[ "script_name" := PStr "deploy" ]} Sample.world
  = (Result [Text "Error executing script: Script not found: deploy"], Sample.world) /\
  trace Sample.world = trace Sample.world.
Proof.
  assert (H : "deploy" <> "") by discriminate.
  split; [reflexivity|]. split; [exact H|]. split; [reflexivity|].
  exact (unknown_script_is_reported_in_text {[ "script_name" := PStr "deploy" ]}
           "deploy" Sample.world Sample.world eq_refl H eq_refl).
Defined.

(** The loop of [list_available_scripts], once the configuration is loaded. *)
Lemma collect_scripts_loaded names scripts w c :
  _config (manager w) = Some c ->
  executor.collect_scripts names scripts w
  = (Ret (scripts ++ flat_map (fun n => match Dict.get (MCPConfig.scripts c) n with
                                        | Some sc => [executor.entry_of sc]
                                        | None => []
                                        end) names), w).
Proof.
  intros Hc. revert scripts.
  induction names as [|n rest IH]; intros scripts; cbn [executor.collect_scripts flat_map].
  - unfold ret. now rewrite app_nil_r.
  - unfold bind. rewrite (get_script_config_loaded n w c Hc).
    destruct (Dict.get (MCPConfig.scripts c) n) as [sc|].
    + rewrite IH. now rewrite <- app_assoc.
    + apply IH.
Qed.

Lemma flat_map_keys (d d0 : Dict.t ScriptConfig.t) :
  (forall k v, In (k, v) d -> Dict.get d0 k = Some v) ->
  flat_map (fun n => match Dict.get d0 n with
                     | Some sc => [executor.entry_of sc]
                     | None => []
                     end) (Dict.keys d)
  = map executor.entry_of (Dict.values d).
Proof.
  induction d as [|[k v] rest IH]; intros H; cbn; [reflexivity|].
  rewrite (H k v (or_introl eq_refl)). cbn. f_equal.
  apply IH. intros k' v' Hin. apply H. now right.
Qed.

Lemma extend_all_concat scripts output_lines :
  extend_all output_lines scripts
  = output_lines ++ List.concat (map script_lines scripts).
Proof.
  revert output_lines.
  induction scripts as [|s rest IH]; intros output_lines; cbn [extend_all map List.concat].
  - now rewrite app_nil_r.
  - rewrite IH. now rewrite <- app_assoc.
Qed.

(** C8: with no script registered, [list_scripts] answers that none is
    configured, in a normal response; with N scripts registered, the
    text is the heading followed by exactly N blocks, one per script in
    registry order, each giving that script's name, description, path,
    arguments and time-out. *)
Theorem list_scripts_blocks (args : gmap string value) w c w1 :
  config.config w = (Ret c, w1) ->
  Dict.wf (MCPConfig.scripts c) ->
  (MCPConfig.scripts c = [] ->
   tools_call "list_scripts" args w = (Result [Text "No scripts configured"], w1)) /\
  (MCPConfig.scripts c <> [] ->
   exists blocks,
     tools_call "list_scripts" args w
     = (Result [Text (join newline (["Available Scripts:"; ""] ++ List.concat blocks))],
        w1) /\
     length blocks = length (MCPConfig.scripts c) /\
     blocks = map block_of (Dict.values (MCPConfig.scripts c))).
Proof.
  intros Hcfg Hwf.
  destruct (config_Ret _ _ _ Hcfg) as (Hloaded & _).
  assert (Hlist : executor.list_available_scripts w
                  = (Ret (map executor.entry_of (Dict.values (MCPConfig.scripts c))), w1)).
  { unfold executor.list_available_scripts, config.list_scripts, bind, ret.
    rewrite Hcfg. rewrite (collect_scripts_loaded _ _ _ _ Hloaded). cbn [app].
    rewrite (flat_map_keys _ _ (fun k v => get_In _ k v Hwf)). reflexivity. }
  split.
  - intros Hempty. apply tools_call_Ret. unfold call_tool.
    cbn [String.eqb Ascii.eqb Bool.eqb].
    cbv beta iota delta [try_except handle_list_scripts bind].
    rewrite Hlist, Hempty. reflexivity.
  - intros Hne. exists (map block_of (Dict.values (MCPConfig.scripts c))).
    split; [|split; [|reflexivity]].
    + apply tools_call_Ret. unfold call_tool.
      cbn [String.eqb Ascii.eqb Bool.eqb].
      cbv beta iota delta [try_except handle_list_scripts bind].
      rewrite Hlist.
      destruct (MCPConfig.scripts c) as [|[k sc] rest]; [contradiction|].
      cbn [Dict.values map snd]. unfold ret.
      rewrite extend_all_concat. cbn [map]. rewrite map_map. reflexivity.
    + unfold Dict.values. now rewrite !length_map.
Qed.

Lemma list_scripts_blocks_witness :
  config.config Sample.world = (Ret Sample.loaded, Sample.world) /\
  Dict.wf (MCPConfig.scripts Sample.loaded) /\
  tools_call "list_scripts" ∅ Sample.empty_world
  = (Result [Text "No scripts configured"], Sample.empty_world) /\
  exists blocks,
    tools_call "list_scripts" ∅ Sample.world
    = (Result [Text (join newline (["Available Scripts:"; ""] ++ List.concat blocks))],
       Sample.world) /\
    length blocks = 4%nat /\
    blocks = map block_of [Sample.hello; Sample.slow; Sample.binary; Sample.locked].
Proof.
  assert (Hwf : Dict.wf (MCPConfig.scripts Sample.loaded)) by apply of_items_wf.
  assert (Hwf0 : Dict.wf (A:=ScriptConfig.t) []) by constructor.
  split; [reflexivity|]. split; [exact Hwf|]. split.
  - exact (proj1 (list_scripts_blocks ∅ Sample.empty_world _ Sample.empty_world
                    eq_refl Hwf0) eq_refl).
  - refine (proj2 (list_scripts_blocks ∅ Sample.world Sample.loaded Sample.world
                     eq_refl Hwf) _).
    discriminate.
Defined.

(** C9: once [reload_config] has succeeded, the default working
    directory in memory is the one the configuration file gives (["."]
    when it gives none), whatever an earlier [set_working_directory]
    had installed: [get_working_directory] reports it, and a script is
    spawned in its own directory if it has one and in that default
    otherwise. *)
Theorem reload_discards_override (args args' : gmap string value) w w1 w2 content :
  tools_call "set_working_directory" args w = (content, w1) ->
  tools_call "reload_config" args' w1
  = (Result [Text "Configuration reloaded successfully"], w2) ->
  exists c,
    _config (manager w2) = Some c /\
    MCPConfig.working_directory c = file_working_directory w1 /\
    file_working_directory w2 = file_working_directory w1 /\
    tools_call "get_working_directory" ∅ w2
    = (Result [Text ("Current working directory: " +:+ file_working_directory w1)], w2) /\
    forall sc script_args cwd,
      path_resolve w2 (effective_working_dir sc c) = Ret cwd ->
      exists r w3 rest,
        executor._execute_script_config sc (PList script_args) w2 = (Ret r, w3) /\
        trace w3 = trace w2 ++ Spawn (argv_of sc script_args) cwd :: rest.
Proof.
  intros _ Hreload.
  unfold tools_call, call_tool in Hreload.
  cbn [String.eqb Ascii.eqb Bool.eqb] in Hreload.
  cbv beta iota delta [try_except handle_reload_config bind] in Hreload.
  destruct (config.reload_config w1) as [[c|e] w'] eqn:E.
  2:{ cbn in Hreload. inversion Hreload. }
  cbn in Hreload. inversion Hreload; subst w'; clear Hreload.
  unfold config.reload_config, bind, config.set__config in E.
  apply load_config_Ret in E as (Hm & _ & _ & _ & Hwd & Hfile & _).
  cbn in Hfile. change (file_working_directory w2 = file_working_directory w1) in Hfile.
  assert (Hc : _config (manager w2) = Some c) by now rewrite Hm.
  exists c. rewrite <- Hfile, <- Hwd.
  split; [exact Hc|]. split; [reflexivity|]. split; [reflexivity|]. split.
  - apply tools_call_Ret. unfold call_tool. cbn [String.eqb Ascii.eqb Bool.eqb].
    cbv beta iota delta [try_except handle_get_working_directory bind].
    now rewrite (config_loaded _ _ Hc).
  - intros sc script_args cwd Hcwd.
    destruct (run_spawns_first sc script_args w2 c cwd Hc Hcwd)
      as (r & w3 & rest & Hr & Ht & _).
    exists r, w3, rest. split; [exact Hr|exact Ht].
Qed.

Lemma reload_discards_override_witness :
  tools_call "set_working_directory" Sample.override Sample.world
  = (Result [Text "Working directory set to: /tmp"], Sample.overridden_world) /\
  tools_call "get_working_directory" ∅ Sample.overridden_world
  = (Result [Text "Current working directory: /tmp"], Sample.overridden_world) /\
  tools_call "reload_config" ∅ Sample.overridden_world
  = (Result [Text "Configuration reloaded successfully"], Sample.reloaded_world) /\
  tools_call "get_working_directory" ∅ Sample.reloaded_world
  = (Result [Text "Current working directory: /srv"], Sample.reloaded_world).
Proof.
  assert (H1 : tools_call "set_working_directory" Sample.override Sample.world
               = (Result [Text "Working directory set to: /tmp"],
                  Sample.overridden_world)) by reflexivity.
  assert (H2 : tools_call "reload_config" ∅ Sample.overridden_world
               = (Result [Text "Configuration reloaded successfully"],
                  Sample.reloaded_world)) by reflexivity.
  split; [exact H1|]. split; [reflexivity|]. split; [exact H2|].
  destruct (reload_discards_override Sample.override ∅ Sample.world
              Sample.overridden_world Sample.reloaded_world _ H1 H2)
    as (c & _ & _ & _ & Hget & _).
  exact Hget.
Defined.

(** C10: an empty string for a required parameter is handled like a
    missing one.  [run_script] and [get_script_info] with an empty
    [script_name] answer that [script_name] is required, and
    [set_working_directory] with an empty [path] that [path] is
    required; the answer is the one given when the parameter is left
    out, and the world, registry and stored directory included, stays
    as it was. *)
Theorem empty_string_is_like_absent (args1 args2 : gmap string value) w :
  args1 !! "script_name" = Some (PStr "") ->
  args2 !! "path" = Some (PStr "") ->
  (tools_call "run_script" args1 w
   = (Result [Text "Error: script_name is required"], w) /\
   tools_call "run_script" args1 w
   = tools_call "run_script" (delete "script_name" args1) w) /\
  (tools_call "get_script_info" args1 w
   = (Result [Text "Error: script_name is required"], w) /\
   tools_call "get_script_info" args1 w
   = tools_call "get_script_info" (delete "script_name" args1) w) /\
  (tools_call "set_working_directory" args2 w
   = (Result [Text "Error: path is required"], w) /\
   tools_call "set_working_directory" args2 w
   = tools_call "set_working_directory" (delete "path" args2) w).
Proof.
  intros H1 H2.
  assert (D1 : delete "script_name" args1 !! "script_name" = None)
    by apply lookup_delete_eq.
  assert (D2 : delete "path" args2 !! "path" = None) by apply lookup_delete_eq.
  repeat split.
  - apply tools_call_Ret, run_script_requires_name. now rewrite H1.
  - etransitivity; [|symmetry];
      apply tools_call_Ret, run_script_requires_name; [now rewrite H1 | now rewrite D1].
  - apply tools_call_Ret, get_script_info_requires_name. now rewrite H1.
  - etransitivity; [|symmetry];
      apply tools_call_Ret, get_script_info_requires_name; [now rewrite H1 | now rewrite D1].
  - apply tools_call_Ret, set_working_directory_requires_path. now rewrite H2.
  - etransitivity; [|symmetry];
      apply tools_call_Ret, set_working_directory_requires_path; [now rewrite H2 | now rewrite D2].
Qed.

Lemma empty_string_is_like_absent_witness :
  Sample.empty_name !! "script_name" = Some (PStr "") /\
  Sample.empty_path !! "path" = Some (PStr "") /\
  tools_call "run_script" Sample.empty_name Sample.fresh_world
  = (Result [Text "Error: script_name is required"], Sample.fresh_world) /\
  tools_call "get_script_info" Sample.empty_name Sample.fresh_world
  = (Result [Text "Error: script_name is required"], Sample.fresh_world) /\
  tools_call "set_working_directory" Sample.empty_path Sample.fresh_world
  = (Result [Text "Error: path is required"], Sample.fresh_world).
Proof.
  split; [reflexivity|]. split; [reflexivity|].
  destruct (empty_string_is_like_absent Sample.empty_name Sample.empty_path
              Sample.fresh_world eq_refl eq_refl)
    as ((Ha & _) & (Hb & _) & (Hc & _)).
  auto.
Defined.

End ServerClaims.

(** * Further properties *)

(** ** Loading, caching and reloading the configuration *)

Section LoadingProperties.
Import Py config Loading.

Lemma field_errors_path loc v w :
  field_errors loc (validate_path v) w
  = (Ret (if path_exists w v then []
          else [(loc, "Script path does not exist: " +:+ v)]), w).
Proof.
  cbv beta iota delta [field_errors try_except bind validate_path os_path_exists ret raise].
  now destruct (path_exists w v).
Qed.

Lemma field_errors_working_directory loc v w :
  field_errors loc (validate_working_directory v) w
  = (Ret (if path_exists w v then []
          else [(loc, "Working directory does not exist: " +:+ v)]), w).
Proof.
  cbv beta iota delta [field_errors try_except bind validate_working_directory
                         os_path_exists ret raise].
  now destruct (path_exists w v).
Qed.

Lemma scripts_errors_nil items w :
  exists errors,
    scripts_errors items w = (Ret errors, w) /\
    (errors = [] <->
     forallb (fun kv => path_exists w (ScriptConfig.path (snd kv))) items = true).
Proof.
  induction items as [|[k sc] rest IH]; cbn [scripts_errors forallb snd].
  - exists []. split; [reflexivity|tauto].
  - destruct IH as (there & Ht & Hiff).
    unfold bind. rewrite field_errors_path, Ht. unfold ret.
    eexists. split; [reflexivity|].
    destruct (path_exists w (ScriptConfig.path sc)); cbn.
    + exact Hiff.
    + split; discriminate.
Qed.

(** The constructor accepts exactly the valid keyword arguments. *)
Lemma MCPConfig_init_valid d w :
  if config_valid w d then MCPConfig_init d w = (Ret (config_of d), w)
  else exists errors,
      errors <> [] /\ MCPConfig_init d w = (Raise (ValidationError "MCPConfig" errors), w).
Proof.
  unfold MCPConfig_init, config_valid, bind.
  destruct (scripts_errors_nil (Dict.of_items (cd_scripts d)) w)
    as (sc_errors & Hs & Hiff).
  destruct (cd_working_directory d) as [v|] eqn:Hwd.
  - rewrite field_errors_working_directory, Hs.
    destruct (path_exists w v); cbn [andb app].
    + destruct (forallb _ (Dict.of_items (cd_scripts d))).
      * rewrite (proj2 Hiff eq_refl). unfold config_of. now rewrite Hwd.
      * destruct sc_errors as [|x xs].
        { now discriminate (proj1 Hiff eq_refl). }
        eexists. split; [|reflexivity]. discriminate.
    + eexists. split; [|reflexivity]. discriminate.
  - change (ret [] w) with (Ret (@nil (string * string)), w).
    cbv beta iota. rewrite Hs. cbn [andb app].
    destruct (forallb _ (Dict.of_items (cd_scripts d))).
    + rewrite (proj2 Hiff eq_refl). unfold config_of. now rewrite Hwd.
    + destruct sc_errors as [|x xs].
      { now discriminate (proj1 Hiff eq_refl). }
      eexists. split; [|reflexivity]. discriminate.
Qed.

(** Loading a file that parses. *)
Lemma load_config_parsed w d :
  config_file w = Some (ConfigJson d) ->
  if config_valid w d then
    load_config w = (Ret (config_of d), holding w (Some (config_of d)))
  else
    exists msg,
      load_config w = (Raise (ValueError ("Failed to load configuration: " +:+ msg)), w).
Proof.
  intros Hfile. unfold load_config. rewrite Hfile.
  cbv beta iota delta [try_except bind ret raise read_json].
  pose proof (MCPConfig_init_valid d w) as H.
  destruct (config_valid w d).
  - rewrite H. reflexivity.
  - destruct H as (errors & _ & ->). eexists. reflexivity.
Qed.

(** Loading when there is no file. *)
Lemma load_config_absent w :
  config_file w = None ->
  load_config w
  = if path_exists w "." then
      match write_error w with
      | None =>
        (Ret bare_config,
         set_config_file (holding w (Some bare_config))
                         (Some (ConfigJson default_config)))
      | Some e => (Raise e, holding w (Some bare_config))
      end
    else
      (Raise (ValidationError "MCPConfig"
                [("working_directory", "Working directory does not exist: .")]), w).
Proof.
  intros Hfile. unfold load_config. rewrite Hfile.
  cbv beta iota delta [bind ret].
  match goal with |- context [MCPConfig_init ?kw w] =>
    pose proof (MCPConfig_init_valid kw w) as H;
    unfold config_valid in H;
    cbn [cd_working_directory cd_scripts Dict.of_items fold_left forallb] in H;
    rewrite andb_true_r in H
  end.
  destruct (path_exists w ".") eqn:Hdot.
  - rewrite H. unfold set__config, _save_default_config. cbn [write_error set_manager].
    now destruct (write_error w).
  - clear H. unfold MCPConfig_init, bind.
    cbn [cd_working_directory cd_scripts Dict.of_items fold_left scripts_errors].
    rewrite field_errors_working_directory, Hdot. reflexivity.
Qed.

(** X1: loading an existing configuration file succeeds exactly when the
    working directory it gives (if any) exists and so does the path of
    every script in the dictionary read from it (of two members written
    under one key only the last is read).  Then the manager holds the
    configuration built from the file and nothing else changes;
    otherwise a [ValueError] comes out and the world is as before. *)
Theorem load_config_existing_file w d :
  config_file w = Some (ConfigJson d) ->
  if config_valid w d then
    load_config w = (Ret (config_of d), holding w (Some (config_of d)))
  else
    exists msg,
      load_config w = (Raise (ValueError ("Failed to load configuration: " +:+ msg)), w).
Proof.
  intros Hfile. unfold load_config. rewrite Hfile.
  cbv beta iota delta [try_except bind ret raise read_json].
  pose proof (MCPConfig_init_valid d w) as H.
  destruct (config_valid w d).
  - rewrite H. reflexivity.
  - destruct H as (errors & _ & ->). eexists. reflexivity.
Qed.

Lemma load_config_existing_file_witness :
  config_file Scenario.shadowed_world = Some (ConfigJson Scenario.shadowed_file) /\
  path_exists Scenario.shadowed_world "/nowhere" = false /\
  load_config Scenario.shadowed_world
  = (Ret (config_of Scenario.shadowed_file),
     holding Scenario.shadowed_world (Some (config_of Scenario.shadowed_file))) /\
  MCPConfig.scripts (config_of Scenario.shadowed_file) = [("hello", Sample.hello)].
Proof.
  split; [reflexivity|]. split; [reflexivity|]. split; [|reflexivity].
  exact (load_config_existing_file Scenario.shadowed_world Scenario.shadowed_file
           eq_refl).
Defined.





(** X4: what a reload that fails leaves behind.  With a configuration
    file in place the manager holds no configuration at all afterwards:
    the registry and the working directory held before are gone.
    Without a file the same holds when the current directory does not
    exist; when the default file could not be opened for writing, the
    manager holds the configuration without scripts.  The tool answers
    with the error text in each case. *)
Theorem failed_reload_discards_configuration (args : gmap string value) w e w' :
  reload_config w = (Raise e, w') ->
  match config_file w with
  | Some _ => w' = holding w None
  | None =>
    if path_exists w "." then
      write_error w = Some e /\ w' = holding w (Some bare_config)
    else w' = holding w None
  end /\
  server.tools_call "reload_config" args w
  = (server.Result [server.Text ("Error reloading configuration: " +:+ str_exn e)], w').
Proof.
  intros H. split.
  - unfold reload_config, bind, set__config in H.
    change (set_manager w {| config_path := config_path (manager w); _config := None |})
      with (holding w None) in H.
    destruct (config_file w) as [[x|d]|] eqn:Hfile.
    + destruct (load_config (holding w None)) as [[c|y] w0] eqn:E;
        inversion H; subst.
      apply load_config_Raise in E as [->|(Hf & _)]; [reflexivity|].
      cbn in Hf. congruence.
    + pose proof (load_config_parsed (holding w None) d Hfile) as Hl.
      destruct (config_valid (holding w None) d).
      * rewrite Hl in H. discriminate.
      * destruct Hl as [msg Hl]. rewrite Hl in H. now inversion H.
    + rewrite (load_config_absent (holding w None) Hfile) in H.
      cbn [path_exists write_error holding set_manager] in H.
      destruct (path_exists w ".").
      * destruct (write_error w) as [x|]; inversion H; subst. now split.
      * now inversion H.
  - apply tools_call_Ret. unfold server.call_tool.
    cbn [String.eqb Ascii.eqb Bool.eqb].
    cbv beta iota delta [try_except server.handle_reload_config bind].
    now rewrite H.
Qed.

Lemma failed_reload_discards_configuration_witness :
  _config (manager Scenario.corrupted_later) = Some Sample.loaded /\
  reload_config Scenario.corrupted_later
  = (Raise (ValueError
              "Failed to load configuration: Expecting value: line 1 column 1 (char 0)"),
     holding Scenario.corrupted_later None) /\
  server.tools_call "reload_config" ∅ Scenario.corrupted_later
  = (server.Result
       [server.Text "Error reloading configuration: Failed to load configuration: Expecting value: line 1 column 1 (char 0)"],
     holding Scenario.corrupted_later None) /\
  server.tools_call "reload_config" ∅ Scenario.read_only_start
  = (server.Result
       [server.Text "Error reloading configuration: [Errno 13] Permission denied: '.mcp-config.json'"],
     holding Scenario.read_only_start (Some bare_config)).
Proof.
  assert (H : reload_config Scenario.corrupted_later
              = (Raise (ValueError
                          "Failed to load configuration: Expecting value: line 1 column 1 (char 0)"),
                 holding Scenario.corrupted_later None)) by reflexivity.
  assert (H' : reload_config Scenario.read_only_start
               = (Raise (OSError "[Errno 13] Permission denied: '.mcp-config.json'"),
                  holding Scenario.read_only_start (Some bare_config))) by reflexivity.
  split; [reflexivity|]. split; [exact H|].
  split.
  - exact (proj2 (failed_reload_discards_configuration ∅ _ _ _ H)).
  - exact (proj2 (failed_reload_discards_configuration ∅ _ _ _ H')).
Defined.

(** X5: once the [config] property has yielded a configuration it is
    cached: later accesses yield the same one and change nothing,
    whatever has become of the file in the meantime. *)
Theorem config_is_cached w c w' (f : option file_content) :
  config w = (Ret c, w') ->
  config w' = (Ret c, w') /\
  config (set_config_file w' f) = (Ret c, set_config_file w' f).
Proof.
  intros H. apply config_Ret in H as (Hc & _).
  split; apply config_loaded; exact Hc.
Qed.

Lemma config_is_cached_witness :
  config Sample.fresh_world
  = (Ret Sample.loaded, holding Sample.fresh_world (Some Sample.loaded)) /\
  config (set_config_file (holding Sample.fresh_world (Some Sample.loaded)) None)
  = (Ret Sample.loaded,
     set_config_file (holding Sample.fresh_world (Some Sample.loaded)) None).
Proof.
  assert (H : config Sample.fresh_world
              = (Ret Sample.loaded, holding Sample.fresh_world (Some Sample.loaded)))
    by reflexivity.
  split; [exact H|].
  exact (proj2 (config_is_cached _ _ _ None H)).
Defined.

End LoadingProperties.

(** ** Lookups in the loaded registry *)

Section RegistryProperties.
Import Py config Loading.

Lemma get_app {A} (d1 d2 : Dict.t A) k :
  Dict.get (d1 ++ d2) k
  = match Dict.get d1 k with Some v => Some v | None => Dict.get d2 k end.
Proof.
  induction d1 as [|[k' v'] rest IH]; cbn; [reflexivity|].
  now destruct (String.eqb k' k).
Qed.

(** Reading back after [d[k] = v]. *)
Lemma get_set {A} (d : Dict.t A) k v k' :
  Dict.get (Dict.set d k v) k'
  = if String.eqb k k' then Some v else Dict.get d k'.
Proof.
  induction d as [|[k0 v0] rest IH]; cbn.
  - reflexivity.
  - destruct (String.eqb k0 k) eqn:E0; cbn.
    + apply String.eqb_eq in E0; subst k0.
      now destruct (String.eqb k k').
    + destruct (String.eqb k0 k') eqn:E1.
      * apply String.eqb_eq in E1; subst k0. now rewrite String.eqb_sym, E0.
      * exact IH.
Qed.

(** Of the members of a JSON object, the last one under a key counts. *)
Lemma get_of_items {A} (items : list (string * A)) k :
  Dict.get (Dict.of_items items) k = Dict.get (rev items) k.
Proof.
  unfold Dict.of_items.
  assert (H : forall d,
            Dict.get (fold_left (fun d kv => Dict.set d (fst kv) (snd kv)) items d) k
            = match Dict.get (rev items) k with
              | Some v => Some v
              | None => Dict.get d k
              end).
  { induction items as [|[k0 v0] rest IH]; intros d; cbn [fold_left rev fst snd].
    - reflexivity.
    - rewrite IH, get_app, get_set. cbn.
      destruct (Dict.get (rev rest) k); [reflexivity|].
      now destruct (String.eqb k0 k). }
  rewrite H. now destruct (Dict.get (rev items) k).
Qed.

(** X6: on a manager that has loaded nothing yet, looking up a script
    loads the file and finds what the file declares under that key (the
    last declaration, should there be several), and nothing for a key
    the file does not declare; the key decides, not the [name] field. *)
Theorem lookup_finds_what_the_file_declares w d name :
  _config (manager w) = None ->
  config_file w = Some (ConfigJson d) ->
  config_valid w d = true ->
  get_script_config (PStr name) w
  = (Ret (Dict.get (rev (cd_scripts d)) name), holding w (Some (config_of d))).
Proof.
  intros Hnone Hfile Hvalid.
  pose proof (load_config_parsed w d Hfile) as Hload.
  rewrite Hvalid in Hload.
  unfold get_script_config, bind, config. rewrite Hnone, Hload.
  unfold ret. cbn [MCPConfig.scripts config_of]. now rewrite get_of_items.
Qed.

Lemma lookup_finds_what_the_file_declares_witness :
  _config (manager Sample.fresh_world) = None /\
  config_file Sample.fresh_world = Some (ConfigJson Sample.file) /\
  config_valid Sample.fresh_world Sample.file = true /\
  get_script_config (PStr "slow") Sample.fresh_world
  = (Ret (Some Sample.slow), holding Sample.fresh_world (Some Sample.loaded)) /\
  get_script_config (PStr "deploy") Sample.fresh_world
  = (Ret None, holding Sample.fresh_world (Some Sample.loaded)).
Proof.
  split; [reflexivity|]. split; [reflexivity|]. split; [reflexivity|]. split.
  - exact (lookup_finds_what_the_file_declares Sample.fresh_world Sample.file "slow"
             eq_refl eq_refl eq_refl).
  - exact (lookup_finds_what_the_file_declares Sample.fresh_world Sample.file "deploy"
             eq_refl eq_refl eq_refl).
Defined.

End RegistryProperties.

(** ** More on the executor *)

Section ExecutorProperties.
Import Py executor Outcome Shape.



Lemma handlers_time sc start process e w :
  exists r w',
    handlers sc start process e w = (Ret r, w') /\
    execution_time r = (clock w (ticks w) - start)%float /\
    clock w' = clock w /\ ticks w' = S (ticks w).
Proof.
  unfold handlers. destruct (is_TimeoutError e).
  - unfold except_TimeoutError, bind, time_time, ret.
    destruct process as [[rc|]|]; cbn; eexists; eexists;
      (split; [reflexivity|]); cbn; auto.
  - unfold except_Exception, bind, time_time, ret; cbn.
    eexists; eexists; split; [reflexivity|]; cbn; auto.
Qed.

Lemma decode_Ret_valid data s : Utf8.decode data = Ret s -> Utf8.valid data = true.
Proof. unfold Utf8.decode, Utf8.valid. now destruct (Utf8.scan _ _ _). Qed.

Lemma decode_Raise_invalid data e : Utf8.decode data = Raise e -> Utf8.valid data = false.
Proof. unfold Utf8.decode, Utf8.valid. now destruct (Utf8.scan _ _ _). Qed.

Lemma resolved_run_time sc args w c cwd :
  _config (manager w) = Some c ->
  cwd_of w sc c = Ret cwd ->
  exists r w',
    _execute_script_config sc (PList args) w = (Ret r, w') /\
    ticks w' = (ticks w + if output_undecodable sc w (argv_of sc args) cwd
                          then 3 else 2)%nat /\
    execution_time r = (clock w (Nat.pred (ticks w')) - clock w (ticks w))%float.
Proof.
  intros Hc Hcwd. unfold _execute_script_config, output_undecodable, argv_of.
  unfold bind at 1. unfold time_time at 1.
  unfold bind at 1. unfold list_add, ret at 1.
  unfold bind at 1.
  rewrite (working_dir_of_loaded sc (set_ticks w (S (ticks w))) c Hc).
  unfold bind at 1. unfold Path_resolve at 1.
  cbn [path_resolve set_ticks]. unfold cwd_of in Hcwd. rewrite Hcwd.
  unfold bind at 1. unfold attempt, create_subprocess_exec, bind at 1, emit.
  cbn [processes set_trace set_ticks path_resolve trace app].
  destruct (processes w _ _) as [e|communicate].
  - match goal with |- context [handlers ?a ?b ?p ?x ?v] =>
      destruct (handlers_time a b p x v) as (r & w' & Hr & Ht & Hk & Hn) end.
    exists r, w'. rewrite Hr. cbn in *. rewrite Hn. cbn.
    split; [reflexivity|]. split; [lia|].
    rewrite Ht. reflexivity.
  - unfold bind at 1, emit. cbn [trace set_trace].
    destruct (communicate (ScriptConfig.timeout sc)) as [o e rc|e rc].
    + unfold try_except, completed, bind, time_time, lift, ret.
      cbn [ticks clock set_ticks set_trace].
      destruct (Utf8.decode o) as [so|x] eqn:Ho.
      * rewrite (decode_Ret_valid _ _ Ho).
        destruct (Utf8.decode e) as [se|x] eqn:He.
        -- rewrite (decode_Ret_valid _ _ He).
           eexists; eexists. split; [reflexivity|]. cbn. split; [lia|reflexivity].
        -- rewrite (decode_Raise_invalid _ _ He).
           match goal with |- context [handlers ?a ?b ?p ?y ?v] =>
             destruct (handlers_time a b p y v) as (r & w' & Hr & Ht & Hk & Hn) end.
           exists r, w'. rewrite Hr. cbn in *. rewrite Hn. cbn.
           split; [reflexivity|]. split; [lia|]. rewrite Ht. reflexivity.
      * rewrite (decode_Raise_invalid _ _ Ho).
        match goal with |- context [handlers ?a ?b ?p ?y ?v] =>
          destruct (handlers_time a b p y v) as (r & w' & Hr & Ht & Hk & Hn) end.
        exists r, w'. rewrite Hr. cbn in *. rewrite Hn. cbn.
        split; [reflexivity|]. split; [lia|]. rewrite Ht. reflexivity.
    + match goal with |- context [handlers ?a ?b ?p ?y ?v] =>
        destruct (handlers_time a b p y v) as (r & w' & Hr & Ht & Hk & Hn) end.
      exists r, w'. rewrite Hr. cbn in *. rewrite Hn. cbn.
      split; [reflexivity|]. split; [lia|]. rewrite Ht. reflexivity.
Qed.

(** X8: a run reads the clock before anything else: when resolving
    the working directory then fails, one reading has been taken and
    nothing has been spawned.  When the directory resolves, the
    execution time of the result is the last clock reading of the run
    minus that first one, as binary64 numbers; the run takes two
    readings, except that it takes three, the second being discarded,
    when the child completed and its output is not valid UTF-8. *)
Theorem execution_time_spans_the_run sc args w c :
  _config (manager w) = Some c ->
  match cwd_of w sc c with
  | Raise e =>
    _execute_script_config sc (PList args) w = (Raise e, set_ticks w (S (ticks w)))
  | Ret cwd =>
    exists r w',
      _execute_script_config sc (PList args) w = (Ret r, w') /\
      ticks w' = (ticks w + if output_undecodable sc w (argv_of sc args) cwd
                            then 3 else 2)%nat /\
      execution_time r = (clock w (Nat.pred (ticks w')) - clock w (ticks w))%float
  end.
Proof.
  intros Hc. destruct (cwd_of w sc c) as [cwd|e] eqn:Hcwd.
  - destruct (resolved_run_time sc args w c cwd Hc Hcwd) as (r & w' & Hr & Hn & Ht).
    exists r, w'. split; [exact Hr|]. split; [exact Hn|exact Ht].
  - exact (execute_script_config_unresolved sc args w c e Hc Hcwd).
Qed.

Lemma execution_time_spans_the_run_witness :
  _config (manager Sample.world) = Some Sample.loaded /\
  output_undecodable Sample.binary Sample.world (argv_of Sample.binary []) "/srv" = true /\
  (exists r w',
     _execute_script_config Sample.binary (PList []) Sample.world = (Ret r, w') /\
     ticks w' = 3%nat /\ execution_time r = 2.25%float) /\
  exists w',
    _execute_script_config Sample.lost (PList []) Sample.world
    = (Raise (ValueError "embedded null byte"), w') /\
    ticks w' = 1%nat /\ trace w' = [].
Proof.
  split; [reflexivity|]. split; [reflexivity|]. split.
  - destruct (execution_time_spans_the_run Sample.binary [] Sample.world Sample.loaded
                eq_refl) as (r & w' & Hr & Hn & Ht).
    exists r, w'. split; [exact Hr|].
    assert (Hn' : ticks w' = 3%nat) by exact Hn.
    split; [exact Hn'|]. rewrite Ht, Hn'. reflexivity.
  - exists (set_ticks Sample.world 1). split; [|split; reflexivity].
    exact (execution_time_spans_the_run Sample.lost [] Sample.world Sample.loaded eq_refl).
Defined.

End ExecutorProperties.

(** ** More on the tool handlers *)

Section RunScriptProperties.
Import Py server Outcome.

(** A child that completes with well-formed output: the result in full. *)
Lemma completed_run sc args w c cwd communicate o e rc :
  _config (manager w) = Some c ->
  cwd_of w sc c = Ret cwd ->
  processes w (argv_of sc args) cwd = SpawnOk communicate ->
  communicate (ScriptConfig.timeout sc) = CommDone o e rc ->
  Utf8.valid o = true -> Utf8.valid e = true ->
  exists w',
    executor._execute_script_config sc (PList args) w
    = (Ret {| executor.exit_code := default 0 rc;
              executor.stdout := string_of_list_byte o;
              executor.stderr := string_of_list_byte e;
              executor.execution_time
                := (clock w (S (ticks w)) - clock w (ticks w))%float;
              executor.script_name := ScriptConfig.name sc |}, w') /\
    trace w' = trace w ++ [Spawn (argv_of sc args) cwd;
                           Communicate (ScriptConfig.timeout sc)].
Proof.
  intros Hc Hcwd Hs Hcomm Vo Ve. unfold executor._execute_script_config.
  unfold bind at 1. unfold time_time at 1.
  unfold bind at 1. unfold executor.list_add, ret at 1.
  unfold bind at 1.
  rewrite (working_dir_of_loaded sc (set_ticks w (S (ticks w))) c Hc).
  unfold bind at 1. unfold executor.Path_resolve at 1.
  cbn [path_resolve set_ticks]. unfold cwd_of in Hcwd. rewrite Hcwd.
  unfold bind at 1. unfold attempt, executor.create_subprocess_exec, bind at 1, emit.
  cbn [processes set_trace set_ticks path_resolve trace app].
  unfold argv_of in Hs. rewrite Hs.
  unfold bind at 1, emit. cbn [trace set_trace]. rewrite Hcomm.
  unfold try_except, executor.completed, bind, time_time, lift, ret.
  rewrite (decode_valid _ Vo), (decode_valid _ Ve).
  eexists. split; [reflexivity|]. cbn. now rewrite <- app_assoc.
Qed.

(** X9: [run_script] for a registered script whose working directory
    resolves and whose child completes with well-formed output answers
    with one text of ten lines: the script's name, the child's exit
    code (0 if it reports none), the execution time, a binary64
    number of seconds printed with two decimals as Python's [.2f]
    prints it, whether the exit code is 0, and the two outputs under
    their headings. *)
Theorem run_script_reports_a_completed_run
    (args : gmap string value) name script_args w0 sc w c cwd communicate o e rc :
  args !! "script_name" = Some (PStr name) ->
  name <> "" ->
  args !! "arguments" = Some (PList script_args) ->
  config.get_script_config (PStr name) w0 = (Ret (Some sc), w) ->
  _config (manager w) = Some c ->
  cwd_of w sc c = Ret cwd ->
  processes w (argv_of sc script_args) cwd = SpawnOk communicate ->
  communicate (ScriptConfig.timeout sc) = CommDone o e rc ->
  Utf8.valid o = true -> Utf8.valid e = true ->
  exists w',
    tools_call "run_script" args w0
    = (Result
         [Text (join newline
            [ "Script: " +:+ ScriptConfig.name sc;
              "Exit Code: " +:+ str_int (default 0 rc);
              "Execution Time: "
              +:+ format_2f (clock w (S (ticks w)) - clock w (ticks w))%float
              +:+ "s";
              "Success: " +:+ str_bool (default 0 rc =? 0);
              "";
              "STDOUT:";
              string_of_list_byte o;
              "";
              "STDERR:";
              string_of_list_byte e ])], w') /\
    trace w' = trace w0 ++ [Spawn (argv_of sc script_args) cwd;
                            Communicate (ScriptConfig.timeout sc)].
Proof.
  intros Hname Hne Hargs Hget Hc Hcwd Hs Hcomm Vo Ve.
  destruct (completed_run sc script_args w c cwd communicate o e rc
              Hc Hcwd Hs Hcomm Vo Ve)
    as (w' & Hrun & Ht).
  destruct (execute_script_found name script_args w0 sc w Hget) as [Hexec Htr].
  exists w'. split; [|now rewrite <- Htr].
  apply tools_call_Ret. unfold call_tool. cbn [String.eqb Ascii.eqb Bool.eqb].
  unfold try_except at 1. unfold handle_run_script.
  rewrite Hname, Hargs. cbn [from_option id truthy].
  rewrite (str_truthy_true _ Hne).
  cbv beta iota delta [negb try_except bind]. rewrite Hexec, Hrun. reflexivity.
Qed.

Lemma run_script_reports_a_completed_run_witness :
  exists w',
    tools_call "run_script"
      (<[ "arguments" := PList ["world"] ]> {[ "script_name" := PStr "hello" ]})
      Sample.world
    = (Result
         [Text (join newline
            [ "Script: hello"; "Exit Code: 0"; "Execution Time: 1.50s";
              "Success: True"; ""; "STDOUT:"; "hi"; ""; "STDERR:"; "" ])], w') /\
    trace w' = [Spawn ["bash"; "./scripts/hello.sh"; "world"] "/srv"; Communicate 30].
Proof.
  assert (H : "hello" <> "") by discriminate.
  exact (run_script_reports_a_completed_run
           (<[ "arguments" := PList ["world"] ]> {[ "script_name" := PStr "hello" ]})
           "hello" ["world"] Sample.world Sample.hello Sample.world Sample.loaded
           "/srv" (fun _ => CommDone [x68; x69] [] (Some 0)) [x68; x69] [] (Some 0)
           eq_refl H eq_refl eq_refl eq_refl eq_refl eq_refl eq_refl eq_refl eq_refl).
Defined.

(** X10: [arguments] given as a non-empty string instead of a list
    makes building the command fail before anything is spawned:
    [run_script] answers with the error text. *)
Theorem run_script_rejects_a_string_of_arguments
    (args : gmap string value) name s w0 sc w :
  args !! "script_name" = Some (PStr name) ->
  name <> "" ->
  args !! "arguments" = Some (PStr s) ->
  s <> "" ->
  config.get_script_config (PStr name) w0 = (Ret (Some sc), w) ->
  exists w',
    tools_call "run_script" args w0
    = (Result [Text ("Error executing script: can only concatenate list (not "
                     +:+ dquote +:+ "str" +:+ dquote +:+ ") to list")], w') /\
    trace w' = trace w0.
Proof.
  intros Hname Hne Hargs Hs Hget.
  assert (Htr : trace w = trace w0).
  { apply get_script_config_Ret in Hget as (c & Hc & _). now apply config_Ret in Hc. }
  eexists. split.
  - apply tools_call_Ret. unfold call_tool. cbn [String.eqb Ascii.eqb Bool.eqb].
    unfold try_except at 1. unfold handle_run_script.
    rewrite Hname, Hargs. cbn [from_option id truthy].
    rewrite (str_truthy_true _ Hne).
    cbv beta iota delta [negb try_except bind executor.execute_script]. rewrite Hget.
    unfold executor.or_empty_list. cbn [truthy]. rewrite (str_truthy_true _ Hs).
    reflexivity.
  - exact Htr.
Qed.

Lemma run_script_rejects_a_string_of_arguments_witness :
  exists w',
    tools_call "run_script"
      (<[ "arguments" := PStr "world" ]> {[ "script_name" := PStr "hello" ]})
      Sample.world
    = (Result [Text ("Error executing script: can only concatenate list (not "
                     +:+ dquote +:+ "str" +:+ dquote +:+ ") to list")], w') /\
    trace w' = trace Sample.world.
Proof.
  assert (H : "hello" <> "") by discriminate.
  assert (H' : "world" <> "") by discriminate.
  exact (run_script_rejects_a_string_of_arguments
           (<[ "arguments" := PStr "world" ]> {[ "script_name" := PStr "hello" ]})
           "hello" "world" Sample.world Sample.hello Sample.world
           eq_refl H eq_refl H' eq_refl).
Defined.

(** X11: [arguments] given as [null], as the empty string or as the
    empty list is the same as leaving it out. *)
Theorem falsy_arguments_are_no_arguments (args : gmap string value) v w :
  args !! "arguments" = Some v ->
  truthy v = false ->
  tools_call "run_script" args w = tools_call "run_script" (delete "arguments" args) w.
Proof.
  intros Hargs Hfalsy.
  unfold tools_call, call_tool. cbn [String.eqb Ascii.eqb Bool.eqb].
  unfold handle_run_script.
  rewrite lookup_delete_ne by discriminate.
  rewrite lookup_delete_eq, Hargs. cbn [from_option id].
  destruct (negb (truthy (default PNone (args !! "script_name")))); [reflexivity|].
  unfold executor.execute_script, executor.or_empty_list.
  now rewrite Hfalsy.
Qed.

Lemma falsy_arguments_are_no_arguments_witness :
  tools_call "run_script"
    (<[ "arguments" := PStr "" ]> {[ "script_name" := PStr "hello" ]}) Sample.world
  = tools_call "run_script"
      (delete "arguments"
         (<[ "arguments" := PStr "" ]> {[ "script_name" := PStr "hello" ]}))
      Sample.world.
Proof.
  exact (falsy_arguments_are_no_arguments
           (<[ "arguments" := PStr "" ]> {[ "script_name" := PStr "hello" ]})
           (PStr "") Sample.world eq_refl eq_refl).
Defined.

End RunScriptProperties.

Section CallToolProperties.
Import Py server Outcome Shape.

Lemma one_text_ret t : one_text (ret [Text t]).
Proof. intros w. left. now exists t, w. Qed.

Lemma one_text_raise e : one_text (raise e).
Proof. intros w. right. now exists e, w. Qed.

Lemma one_text_bind {A} (m : M A) (k : A -> M (list TextContent)) :
  (forall a, one_text (k a)) -> one_text (bind m k).
Proof.
  intros Hk w. unfold bind. destruct (m w) as [[a|e] w0].
  - apply Hk.
  - right. now exists e, w0.
Qed.

Lemma always_try_except body (handler : exn -> M (list TextContent)) :
  one_text body -> (forall e, always_one_text (handler e)) ->
  always_one_text (try_except body handler).
Proof.
  intros Hb Hh w. unfold try_except.
  destruct (Hb w) as [(t & w' & ->)|(e & w' & ->)]; [eauto|apply Hh].
Qed.

Lemma always_ret t : always_one_text (ret [Text t]).
Proof. intros w. now exists t, w. Qed.

Lemma always_is_one m : always_one_text m -> one_text m.
Proof. intros H w. left. apply H. Qed.

Lemma handle_run_script_text args : always_one_text (handle_run_script args).
Proof.
  unfold handle_run_script. destruct (negb _); [apply always_ret|].
  apply always_try_except; [|intros e; apply always_ret].
  apply one_text_bind. intros r. apply one_text_ret.
Qed.

Lemma handle_list_scripts_text args : always_one_text (handle_list_scripts args).
Proof.
  unfold handle_list_scripts.
  apply always_try_except; [|intros e; apply always_ret].
  apply one_text_bind. intros [|s rest]; apply one_text_ret.
Qed.

Lemma handle_get_script_info_text args : always_one_text (handle_get_script_info args).
Proof.
  unfold handle_get_script_info. destruct (negb _); [apply always_ret|].
  apply always_try_except; [|intros e; apply always_ret].
  apply one_text_bind. intros [info|]; apply one_text_ret.
Qed.

Lemma handle_get_working_directory_text args :
  always_one_text (handle_get_working_directory args).
Proof.
  unfold handle_get_working_directory.
  apply always_try_except; [|intros e; apply always_ret].
  apply one_text_bind. intros c. apply one_text_ret.
Qed.

Lemma handle_set_working_directory_text args :
  always_one_text (handle_set_working_directory args).
Proof.
  unfold handle_set_working_directory. destruct (negb _); [apply always_ret|].
  apply always_try_except; [|intros e; apply always_ret].
  destruct (default PNone (args !! "path")); try apply one_text_raise.
  apply one_text_bind. intros found. destruct (negb found); [apply one_text_ret|].
  apply one_text_bind. intros _. apply one_text_ret.
Qed.

Lemma handle_reload_config_text args : always_one_text (handle_reload_config args).
Proof.
  unfold handle_reload_config.
  apply always_try_except; [|intros e; apply always_ret].
  apply one_text_bind. intros _. apply one_text_ret.
Qed.

(** X12: [call_tool] never raises: for every tool name, every argument
    dictionary and every state of the world it returns a list holding
    exactly one text item. *)
Theorem call_tool_returns_one_text name (args : gmap string value) w :
  exists t w',
    call_tool name args w = (Ret [Text t], w') /\
    tools_call name args w = (Result [{| type := "text"; text := t |}], w').
Proof.
  assert (H : always_one_text (call_tool name args)).
  { unfold call_tool. apply always_try_except; [|intros e; apply always_ret].
    apply always_is_one.
    repeat match goal with
           | |- always_one_text (if ?b then _ else _) => destruct b
           end;
      auto using handle_run_script_text, handle_list_scripts_text,
        handle_get_script_info_text, handle_get_working_directory_text,
        handle_set_working_directory_text, handle_reload_config_text, always_ret. }
  destruct (H w) as (t & w' & Hr). exists t, w'. split; [exact Hr|].
  now apply tools_call_Ret.
Qed.

(** The configuration manager never touches a process. *)
Lemma config_trace w : trace (snd (config.config w)) = trace w.
Proof.
  destruct (config.config w) as [[c|e] w'] eqn:E; cbn.
  - now apply config_Ret in E.
  - now apply config_Raise_frame in E.
Qed.

Lemma reload_config_trace w : trace (snd (config.reload_config w)) = trace w.
Proof.
  unfold config.reload_config, bind, config.set__config.
  destruct (config.load_config _) as [[c|e] w'] eqn:E; cbn.
  - now apply load_config_Ret in E as (_ & -> & _).
  - now apply load_config_Raise_frame in E.
Qed.

Lemma get_script_config_trace v w :
  trace (snd (config.get_script_config v w)) = trace w.
Proof.
  unfold config.get_script_config, bind. pose proof (config_trace w) as H.
  destruct (config.config w) as [[c|e] w']; cbn in *; [|exact H].
  now destruct v.
Qed.

Lemma collect_scripts_trace names scripts w :
  trace (snd (executor.collect_scripts names scripts w)) = trace w.
Proof.
  revert scripts w.
  induction names as [|n rest IH]; intros scripts w; cbn [executor.collect_scripts].
  - reflexivity.
  - unfold bind. pose proof (get_script_config_trace (PStr n) w) as H.
    destruct (config.get_script_config (PStr n) w) as [[[sc|]|e] w']; cbn in *.
    + now rewrite IH.
    + now rewrite IH.
    + exact H.
Qed.

(** A computation that leaves the trace as it is. *)
Lemma try_except_trace {A} (body : M A) handler w :
  (forall w0, trace (snd (body w0)) = trace w0) ->
  (forall e w0, trace (snd (handler e w0)) = trace w0) ->
  trace (snd (try_except body handler w)) = trace w.
Proof.
  intros Hb Hh. unfold try_except. specialize (Hb w).
  destruct (body w) as [[a|e] w']; cbn in *; [exact Hb|].
  now rewrite Hh.
Qed.

Lemma bind_trace {A B} (m : M A) (k : A -> M B) w :
  (forall w0, trace (snd (m w0)) = trace w0) ->
  (forall a w0, trace (snd (k a w0)) = trace w0) ->
  trace (snd (bind m k w)) = trace w.
Proof.
  intros Hm Hk. unfold bind. specialize (Hm w).
  destruct (m w) as [[a|e] w']; cbn in *; [|exact Hm].
  now rewrite Hk.
Qed.

Lemma handle_list_scripts_trace args w :
  trace (snd (handle_list_scripts args w)) = trace w.
Proof.
  unfold handle_list_scripts. apply try_except_trace; [|reflexivity].
  intros w0. apply bind_trace.
  - intros w1. unfold executor.list_available_scripts. apply bind_trace.
    + intros w2. unfold config.list_scripts. apply bind_trace; [apply config_trace|].
      reflexivity.
    + intros names w2. apply collect_scripts_trace.
  - intros [|s rest] w1; reflexivity.
Qed.

Lemma handle_get_script_info_trace args w :
  trace (snd (handle_get_script_info args w)) = trace w.
Proof.
  unfold handle_get_script_info. destruct (negb _); [reflexivity|].
  apply try_except_trace; [|reflexivity].
  intros w0. apply bind_trace.
  - intros w1. unfold executor.get_script_info. apply bind_trace.
    + apply get_script_config_trace.
    + intros [sc|] w2; reflexivity.
  - intros [info|] w1; reflexivity.
Qed.

Lemma handle_get_working_directory_trace args w :
  trace (snd (handle_get_working_directory args w)) = trace w.
Proof.
  unfold handle_get_working_directory. apply try_except_trace; [|reflexivity].
  intros w0. apply bind_trace; [apply config_trace|reflexivity].
Qed.

Lemma handle_set_working_directory_trace args w :
  trace (snd (handle_set_working_directory args w)) = trace w.
Proof.
  unfold handle_set_working_directory. destruct (negb _); [reflexivity|].
  apply try_except_trace; [|reflexivity].
  intros w0. destruct (default PNone (args !! "path")); try reflexivity.
  apply bind_trace; [reflexivity|].
  intros found w1. destruct (negb found); [reflexivity|].
  apply bind_trace; [|reflexivity].
  intros w2. unfold assign_working_directory. apply bind_trace; [apply config_trace|].
  reflexivity.
Qed.

Lemma handle_reload_config_trace args w :
  trace (snd (handle_reload_config args w)) = trace w.
Proof.
  unfold handle_reload_config. apply try_except_trace; [|reflexivity].
  intros w0. apply bind_trace; [apply reload_config_trace|reflexivity].
Qed.

Lemma spawns_app l1 l2 : spawns (l1 ++ l2) = spawns l1 ++ spawns l2.
Proof. unfold spawns. induction l1 as [|x l1 IH]; cbn; [reflexivity|].
  destruct (is_Spawn x); cbn; now rewrite IH. Qed.

Lemma spawns_none rest :
  forallb (fun ev => negb (is_Spawn ev)) rest = true -> spawns rest = [].
Proof.
  unfold spawns. induction rest as [|x rest IH]; cbn; [reflexivity|].
  destruct (is_Spawn x); cbn; [discriminate|exact IH].
Qed.

(** One run by name: at most one spawn. *)
Lemma execute_script_spawns v a w :
  exists events,
    trace (snd (executor.execute_script v a w)) = trace w ++ events /\
    (length (spawns events) <= 1)%nat.
Proof.
  unfold executor.execute_script, bind.
  pose proof (get_script_config_trace v w) as Hg.
  destruct (config.get_script_config v w) as [[[sc|]|e] w1] eqn:Hget; cbn in Hg.
  - assert (Hc : exists c, _config (manager w1) = Some c).
    { unfold config.get_script_config, bind in Hget.
      destruct (config.config w) as [[c|x] w2] eqn:Ec; [|discriminate].
      apply config_Ret in Ec as (Hc & _).
      destruct v; inversion Hget; subst; eauto. }
    destruct Hc as [c Hc].
    destruct (executor.or_empty_list a) as [| s | l] eqn:Ea.
    + exists []. rewrite app_nil_r. split; [|cbn; lia]. now rewrite <- Hg.
    + exists []. rewrite app_nil_r. split; [|cbn; lia]. now rewrite <- Hg.
    + destruct (cwd_of w1 sc c) as [cwd|x] eqn:Hcwd.
      * destruct (run_spawns_first sc l w1 c cwd Hc Hcwd)
          as (r & w' & rest & Hr & Ht & Hrest).
        rewrite Hr. cbn [snd]. rewrite Ht, Hg.
        eexists. split; [reflexivity|].
        change (?x :: rest) with ([x] ++ rest).
        rewrite spawns_app, (spawns_none _ Hrest). cbn. lia.
      * rewrite (execute_script_config_unresolved sc l w1 c x Hc Hcwd).
        exists []. rewrite app_nil_r. split; [exact Hg|cbn; lia].
  - exists []. rewrite app_nil_r. split; [exact Hg|cbn; lia].
  - exists []. rewrite app_nil_r. split; [exact Hg|cbn; lia].
Qed.

Lemma handle_run_script_spawns args w :
  exists events,
    trace (snd (handle_run_script args w)) = trace w ++ events /\
    (length (spawns events) <= 1)%nat.
Proof.
  unfold handle_run_script. destruct (negb _).
  - exists []. rewrite app_nil_r. split; [reflexivity|cbn; lia].
  - unfold try_except, bind.
    match goal with |- context [executor.execute_script ?v ?a w] =>
      destruct (execute_script_spawns v a w) as (events & Ht & Hn);
      destruct (executor.execute_script v a w) as [[r|e] w'] end;
      exists events; cbn in *; auto.
Qed.

(** X13: a tool call spawns at most one process, and only [run_script]
    acts on processes at all: every other call, whatever its arguments,
    leaves the trace of process actions as it is. *)
Theorem only_run_script_spawns name (args : gmap string value) w :
  exists events,
    trace (snd (tools_call name args w)) = trace w ++ events /\
    (length (spawns events) <= 1)%nat /\
    (name <> "run_script" -> events = []).
Proof.
  assert (Hsnd : snd (tools_call name args w) = snd (call_tool name args w)).
  { unfold tools_call. now destruct (call_tool name args w). }
  rewrite Hsnd. clear Hsnd.
  assert (Hquiet : forall m : M (list TextContent),
             (forall w0, trace (snd (m w0)) = trace w0) ->
             exists events,
               trace (snd (try_except m
                             (fun e => ret [Text ("Error: " +:+ str_exn e)]) w))
               = trace w ++ events /\
               (length (spawns events) <= 1)%nat /\
               (name <> "run_script" -> events = [])).
  { intros m Hm. exists []. rewrite app_nil_r.
    split; [|split; [cbn; lia|reflexivity]].
    apply try_except_trace; [exact Hm|reflexivity]. }
  unfold call_tool.
  destruct (String.eqb name "run_script") eqn:E1.
  - apply String.eqb_eq in E1. subst name.
    destruct (handle_run_script_spawns args w) as (events & Ht & Hn).
    exists events. split; [|split; [exact Hn|congruence]].
    unfold try_except.
    destruct (handle_run_script args w) as [[c|e] w']; exact Ht.
  - repeat match goal with
           | |- context [if ?b then _ else _] => destruct b
           end;
      apply Hquiet;
      auto using handle_list_scripts_trace, handle_get_script_info_trace,
        handle_get_working_directory_trace, handle_set_working_directory_trace,
        handle_reload_config_trace.
Qed.

End CallToolProperties.

Section WorkingDirectoryProperties.
Import Py server Outcome Loading Shape.

Lemma set_working_directory_sets (args : gmap string value) p w c w1 :
  args !! "path" = Some (PStr p) ->
  p <> "" ->
  path_exists w p = true ->
  config.config w = (Ret c, w1) ->
  call_tool "set_working_directory" args w
  = (Ret [Text ("Working directory set to: " +:+ p)],
     holding w1 (Some (with_working_directory c p))).
Proof.
  intros Hpath Hne Hex Hcfg. unfold call_tool.
  cbn [String.eqb Ascii.eqb Bool.eqb].
  unfold try_except at 1. unfold handle_set_working_directory.
  rewrite Hpath. cbn [from_option id truthy]. rewrite (str_truthy_true _ Hne).
  cbv beta iota delta [negb try_except bind os_path_exists assign_working_directory].
  rewrite Hex. cbv beta iota delta [negb]. rewrite Hcfg. reflexivity.
Qed.

(** X14: when the path exists and the configuration is available,
    [set_working_directory] stores the path in the configuration the
    manager holds.  [get_working_directory] reports it from then on, the
    registry is what it was, and the configuration file is not written. *)
Theorem set_working_directory_round_trip (args : gmap string value) p w c w1 :
  args !! "path" = Some (PStr p) ->
  p <> "" ->
  path_exists w p = true ->
  config.config w = (Ret c, w1) ->
  exists w2,
    tools_call "set_working_directory" args w
    = (Result [Text ("Working directory set to: " +:+ p)], w2) /\
    tools_call "get_working_directory" ∅ w2
    = (Result [Text ("Current working directory: " +:+ p)], w2) /\
    (forall name,
       config.get_script_config (PStr name) w2
       = (Ret (Dict.get (MCPConfig.scripts c) name), w2)) /\
    config_file w2 = config_file w1.
Proof.
  intros Hpath Hne Hex Hcfg.
  exists (holding w1 (Some (with_working_directory c p))).
  split; [apply tools_call_Ret, (set_working_directory_sets _ _ _ _ _ Hpath Hne Hex Hcfg)|].
  split; [|split; [|reflexivity]].
  - apply tools_call_Ret. unfold call_tool. cbn [String.eqb Ascii.eqb Bool.eqb].
    reflexivity.
  - intros name. reflexivity.
Qed.

Lemma set_working_directory_round_trip_witness :
  exists w2,
    tools_call "set_working_directory" Sample.override Sample.world
    = (Result [Text "Working directory set to: /tmp"], w2) /\
    tools_call "get_working_directory" ∅ w2
    = (Result [Text "Current working directory: /tmp"], w2) /\
    config.get_script_config (PStr "slow") w2 = (Ret (Some Sample.slow), w2) /\
    config_file w2 = config_file Sample.world.
Proof.
  assert (Hne : "/tmp" <> "") by discriminate.
  destruct (set_working_directory_round_trip Sample.override "/tmp" Sample.world
              Sample.loaded Sample.world eq_refl Hne eq_refl eq_refl)
    as (w2 & H1 & H2 & H3 & H4).
  exists w2. split; [exact H1|]. split; [exact H2|]. split; [apply H3|exact H4].
Defined.

(** X15: [set_working_directory] with a path that does not exist
    answers "Error: Directory does not exist: " and the path, in a
    normal response, and changes nothing: the stored directory stays,
    and the configuration is not even loaded. *)
Theorem set_working_directory_rejects_missing_path (args : gmap string value) p w :
  args !! "path" = Some (PStr p) ->
  p <> "" ->
  path_exists w p = false ->
  tools_call "set_working_directory" args w
  = (Result [Text ("Error: Directory does not exist: " +:+ p)], w).
Proof.
  intros Hpath Hne Hex. apply tools_call_Ret. unfold call_tool.
  cbn [String.eqb Ascii.eqb Bool.eqb].
  unfold try_except at 1. unfold handle_set_working_directory.
  rewrite Hpath. cbn [from_option id truthy]. rewrite (str_truthy_true _ Hne).
  cbv beta iota delta [negb try_except bind os_path_exists].
  rewrite Hex. reflexivity.
Qed.

Lemma set_working_directory_rejects_missing_path_witness :
  tools_call "set_working_directory" {[ "path" := PStr "/nowhere" ]} Sample.fresh_world
  = (Result [Text "Error: Directory does not exist: /nowhere"], Sample.fresh_world).
Proof.
  assert (Hne : "/nowhere" <> "") by discriminate.
  exact (set_working_directory_rejects_missing_path {[ "path" := PStr "/nowhere" ]}
           "/nowhere" Sample.fresh_world eq_refl Hne eq_refl).
Defined.

(** X16: after a successful [set_working_directory], a script that has
    a non-empty working directory of its own still runs there; every
    other script runs in the directory just set (in both cases in what
    the directory resolves to, when it resolves). *)
Theorem override_applies_to_scripts_without_directory
    (args : gmap string value) p w c w1 sc script_args cwd :
  args !! "path" = Some (PStr p) ->
  p <> "" ->
  path_exists w p = true ->
  config.config w = (Ret c, w1) ->
  path_resolve w match ScriptConfig.working_directory sc with
                 | Some d => if String.eqb d "" then p else d
                 | None => p
                 end = Ret cwd ->
  exists w2 r w3 rest,
    tools_call "set_working_directory" args w
    = (Result [Text ("Working directory set to: " +:+ p)], w2) /\
    executor._execute_script_config sc (PList script_args) w2 = (Ret r, w3) /\
    trace w3 = trace w2 ++ Spawn (argv_of sc script_args) cwd :: rest.
Proof.
  intros Hpath Hne Hex Hcfg Hcwd.
  set (w2 := holding w1 (Some (with_working_directory c p))).
  assert (Hres : cwd_of w2 sc (with_working_directory c p) = Ret cwd).
  { apply config_Ret in Hcfg as (_ & _ & Hr & _).
    unfold cwd_of, effective_working_dir, str_truthy.
    cbn [MCPConfig.working_directory with_working_directory path_resolve w2 holding
         set_manager].
    rewrite Hr, <- Hcwd.
    destruct (ScriptConfig.working_directory sc) as [d|]; [|reflexivity].
    now destruct (String.eqb d ""). }
  destruct (run_spawns_first sc script_args w2 (with_working_directory c p) cwd
              eq_refl Hres)
    as (r & w3 & rest & Hr & Ht & _).
  exists w2, r, w3, rest.
  split; [apply tools_call_Ret, (set_working_directory_sets _ _ _ _ _ Hpath Hne Hex Hcfg)|].
  split; [exact Hr|exact Ht].
Qed.

Lemma override_applies_to_scripts_without_directory_witness :
  exists w2 r w3 rest,
    tools_call "set_working_directory" Sample.override Sample.world
    = (Result [Text "Working directory set to: /tmp"], w2) /\
    executor._execute_script_config Sample.hello (PList []) w2 = (Ret r, w3) /\
    trace w3 = trace w2 ++ Spawn ["bash"; "./scripts/hello.sh"] "/tmp" :: rest.
Proof.
  assert (Hne : "/tmp" <> "") by discriminate.
  exact (override_applies_to_scripts_without_directory Sample.override "/tmp"
           Sample.world Sample.loaded Sample.world Sample.hello [] "/tmp"
           eq_refl Hne eq_refl eq_refl eq_refl).
Defined.

End WorkingDirectoryProperties.

Section InformationProperties.
Import Py server Outcome Loading Shape.

(** X17: [get_script_info] for a non-empty name answers, in a normal
    response, with the eight lines that describe the script registered
    under that name (the working directory reads "Default" when the
    script has none or an empty one), or with "Script not found: " and
    the name when there is none; no process is touched. *)
Theorem get_script_info_describes_the_script (args : gmap string value) name w o w1 :
  args !! "script_name" = Some (PStr name) ->
  name <> "" ->
  config.get_script_config (PStr name) w = (Ret o, w1) ->
  tools_call "get_script_info" args w
  = (Result [Text match o with
                  | Some sc => info_text name sc
                  | None => "Script not found: " +:+ name
                  end], w1) /\
  trace w1 = trace w.
Proof.
  intros Hname Hne Hget. split.
  - apply tools_call_Ret. unfold call_tool. cbn [String.eqb Ascii.eqb Bool.eqb].
    unfold try_except at 1. unfold handle_get_script_info.
    rewrite Hname. cbn [from_option id truthy]. rewrite (str_truthy_true _ Hne).
    cbv beta iota delta [negb try_except bind executor.get_script_info].
    rewrite Hget. destruct o as [sc|]; [|reflexivity].
    cbv beta iota delta [ret]. unfold info_text, arguments_text, str_truthy.
    cbn [executor.i_name executor.i_description executor.i_path executor.i_arguments
         executor.i_timeout executor.i_working_directory].
    destruct (ScriptConfig.working_directory sc) as [d|]; [|reflexivity].
    now destruct (String.eqb d "").
  - pose proof (get_script_config_trace (PStr name) w) as H.
    now rewrite Hget in H.
Qed.

Lemma get_script_info_describes_the_script_witness :
  tools_call "get_script_info" {[ "script_name" := PStr "hello" ]} Sample.world
  = (Result [Text (join newline
       [ "Script Information: hello"; ""; "Name: hello"; "Description: Say hello";
         "Path: ./scripts/hello.sh"; "Arguments: who"; "Timeout: 30s";
         "Working Directory: Default" ])], Sample.world) /\
  tools_call "get_script_info" {[ "script_name" := PStr "deploy" ]} Sample.world
  = (Result [Text "Script not found: deploy"], Sample.world).
Proof.
  assert (H1 : "hello" <> "") by discriminate.
  assert (H2 : "deploy" <> "") by discriminate.
  split.
  - exact (proj1 (get_script_info_describes_the_script
                    {[ "script_name" := PStr "hello" ]} "hello" Sample.world
                    (Some Sample.hello) Sample.world eq_refl H1 eq_refl)).
  - exact (proj1 (get_script_info_describes_the_script
                    {[ "script_name" := PStr "deploy" ]} "deploy" Sample.world
                    None Sample.world eq_refl H2 eq_refl)).
Defined.

Lemma answers_ret P t : P t -> answers P (ret [Text t]).
Proof. intros H w r w' E. inversion E; subst. eauto. Qed.

Lemma answers_raise P e : answers P (raise e).
Proof. intros w r w' E. discriminate E. Qed.

Lemma answers_bind {A} P (m : M A) (k : A -> M (list TextContent)) :
  (forall a, answers P (k a)) -> answers P (bind m k).
Proof.
  intros Hk w r w' E. unfold bind in E.
  destruct (m w) as [[a|e] w0]; [|discriminate E].
  exact (Hk a w0 r w' E).
Qed.

Lemma answers_try_except P body (handler : exn -> M (list TextContent)) :
  answers P body -> (forall e, answers P (handler e)) ->
  answers P (try_except body handler).
Proof.
  intros Hb Hh w r w' E. unfold try_except in E.
  destruct (body w) as [[a|e] w0] eqn:Eb.
  - inversion E; subst. exact (Hb w _ _ Eb).
  - exact (Hh e w0 r w' E).
Qed.

Lemma handled_prefix c rest : c <> "U"%char -> handled_text (String c rest).
Proof. intros H E. inversion E. contradiction. Qed.

Ltac handled := apply answers_ret, handled_prefix; discriminate.

Lemma handle_run_script_handled args : answers handled_text (handle_run_script args).
Proof.
  unfold handle_run_script. destruct (negb _); [handled|].
  apply answers_try_except; [|intros e; handled].
  apply answers_bind. intros r. handled.
Qed.

Lemma handle_list_scripts_handled args : answers handled_text (handle_list_scripts args).
Proof.
  unfold handle_list_scripts.
  apply answers_try_except; [|intros e; handled].
  apply answers_bind. intros [|s rest]; [handled|].
  rewrite extend_all_concat. handled.
Qed.

Lemma handle_get_script_info_handled args :
  answers handled_text (handle_get_script_info args).
Proof.
  unfold handle_get_script_info. destruct (negb _); [handled|].
  apply answers_try_except; [|intros e; handled].
  apply answers_bind. intros [info|]; handled.
Qed.

Lemma handle_get_working_directory_handled args :
  answers handled_text (handle_get_working_directory args).
Proof.
  unfold handle_get_working_directory.
  apply answers_try_except; [|intros e; handled].
  apply answers_bind. intros c. handled.
Qed.

Lemma handle_set_working_directory_handled args :
  answers handled_text (handle_set_working_directory args).
Proof.
  unfold handle_set_working_directory. destruct (negb _); [handled|].
  apply answers_try_except; [|intros e; handled].
  destruct (default PNone (args !! "path")); try apply answers_raise.
  apply answers_bind. intros found. destruct (negb found); [handled|].
  apply answers_bind. intros _. handled.
Qed.

Lemma handle_reload_config_handled args :
  answers handled_text (handle_reload_config args).
Proof.
  unfold handle_reload_config.
  apply answers_try_except; [|intros e; handled].
  apply answers_bind. intros _. handled.
Qed.

(** X18: what [list_tools] advertises fits what [call_tool] does.  A
    call under an advertised name is never answered with "Unknown
    tool", whatever the arguments; a call under any other name always
    is, and changes nothing.  Every parameter an advertised tool
    declares as required is one of its declared properties, and a call
    of the tool without that parameter is answered with
    "Error: <parameter> is required" and changes nothing. *)
Theorem advertised_tools_fit_the_handlers name :
  (In name advertised_names ->
   forall (args : gmap string value) w,
     fst (call_tool name args w) <> Ret [Text ("Unknown tool: " +:+ name)]) /\
  (~ In name advertised_names ->
   forall (args : gmap string value) w,
     call_tool name args w = (Ret [Text ("Unknown tool: " +:+ name)], w)) /\
  forall t req p,
    In t list_tools ->
    Tool.name t = name ->
    Tool.required (Tool.inputSchema t) = Some req ->
    In p req ->
    In p (map fst (Tool.properties (Tool.inputSchema t))) /\
    forall (args : gmap string value) w,
      args !! p = None ->
      tools_call name args w
      = (Result [Text ("Error: " +:+ p +:+ " is required")], w).
Proof.
  split; [|split].
  - intros Hin args w Hunknown.
    assert (H : answers handled_text (call_tool name args)).
    { unfold call_tool. apply answers_try_except; [|intros e; handled].
      unfold advertised_names, list_tools in Hin. cbn [map In Tool.name] in Hin.
      repeat (destruct Hin as [<-|Hin]); try contradiction;
        cbn [String.eqb Ascii.eqb Bool.eqb];
        auto using handle_run_script_handled, handle_list_scripts_handled,
          handle_get_script_info_handled, handle_get_working_directory_handled,
          handle_set_working_directory_handled, handle_reload_config_handled. }
    destruct (call_tool name args w) as [r w'] eqn:E. cbn [fst] in Hunknown. subst r.
    destruct (H w _ w' E) as (t & Ht & Hhandled).
    inversion Ht; subst t. now apply Hhandled.
  - intros Hn args w. unfold call_tool, try_except.
    unfold advertised_names, list_tools in Hn. cbn [map In Tool.name] in Hn.
    rewrite !eqb_neq_false by (intros ->; tauto).
    reflexivity.
  - intros t req p Hin Hname Hreq Hp. subst name.
    unfold list_tools in Hin. cbn [In] in Hin.
    repeat (destruct Hin as [<-|Hin]); try contradiction;
      cbn in Hreq; try discriminate; inversion Hreq; subst req;
      destruct Hp as [<-|[]]; (split; [cbn; auto|]);
      intros args w Hnone; apply tools_call_Ret.
    + apply run_script_requires_name. now rewrite Hnone.
    + apply get_script_info_requires_name. now rewrite Hnone.
    + apply set_working_directory_requires_path. now rewrite Hnone.
Qed.

Lemma advertised_tools_fit_the_handlers_witness :
  In "run_script" advertised_names /\
  fst (call_tool "run_script" {[ "script_name" := PStr "hello" ]} Sample.world)
  <> Ret [Text "Unknown tool: run_script"] /\
  tools_call "run_script" ∅ Sample.world
  = (Result [Text "Error: script_name is required"], Sample.world) /\
  ~ In "deploy" advertised_names /\
  call_tool "deploy" ∅ Sample.world = (Ret [Text "Unknown tool: deploy"], Sample.world).
Proof.
  assert (Hin : In "run_script" advertised_names) by (left; reflexivity).
  assert (Hout : ~ In "deploy" advertised_names).
  { intros H. repeat (destruct H as [H|H]; [discriminate H|]). exact H. }
  destruct (advertised_tools_fit_the_handlers "run_script") as (Ha & _ & Hc).
  destruct (advertised_tools_fit_the_handlers "deploy") as (_ & Hb & _).
  split; [exact Hin|]. split; [exact (Ha Hin _ _)|].
  split; [|split; [exact Hout|exact (Hb Hout ∅ Sample.world)]].
  assert (Ht : In (nth 0 list_tools (Tool.mk "" "" (Tool.Build_schema "" [] None)))
                  list_tools) by (left; reflexivity).
  exact (proj2 (Hc _ ["script_name"] "script_name" Ht eq_refl eq_refl
                  (or_introl eq_refl)) ∅ Sample.world eq_refl).
Defined.

(** The world a failed load through the [config] property leaves. *)
Lemma config_Raise_world w e w' :
  config.config w = (Raise e, w') ->
  w' = match config_file w with
       | Some _ => w
       | None => if path_exists w "." then holding w (Some bare_config) else w
       end.
Proof.
  intros H. destruct (config_Raise _ _ _ H) as (Hc & Hw).
  unfold config.config in H. rewrite Hc in H.
  destruct (config_file w) as [f|] eqn:Hfile.
  - destruct Hw as [->|(Hf & _)]; [reflexivity|discriminate Hf].
  - rewrite (load_config_absent w Hfile) in H.
    destruct (path_exists w ".").
    + destruct (write_error w); now inversion H.
    + now inversion H.
Qed.

(** X19: when the configuration cannot be loaded, every tool that needs
    it answers, in a normal response, with its own prefix followed by
    the text of the failure.  If the failure came from reading or
    validating, the call changes nothing; if there was no file and the
    default one could not be opened for writing, the manager holds the
    configuration without scripts afterwards, and the next access to
    the configuration succeeds. *)
Theorem unloadable_configuration_is_reported
    (args1 args2 : gmap string value) name p w e w' :
  config.config w = (Raise e, w') ->
  args1 !! "script_name" = Some (PStr name) -> name <> "" ->
  args2 !! "path" = Some (PStr p) -> p <> "" -> path_exists w p = true ->
  tools_call "run_script" args1 w
  = (Result [Text ("Error executing script: " +:+ str_exn e)], w') /\
  tools_call "list_scripts" args1 w
  = (Result [Text ("Error listing scripts: " +:+ str_exn e)], w') /\
  tools_call "get_script_info" args1 w
  = (Result [Text ("Error getting script info: " +:+ str_exn e)], w') /\
  tools_call "get_working_directory" args1 w
  = (Result [Text ("Error getting working directory: " +:+ str_exn e)], w') /\
  tools_call "set_working_directory" args2 w
  = (Result [Text ("Error setting working directory: " +:+ str_exn e)], w') /\
  match config_file w with
  | Some _ => w' = w
  | None =>
    if path_exists w "." then
      w' = holding w (Some bare_config) /\ config.config w' = (Ret bare_config, w')
    else w' = w
  end.
Proof.
  intros Hcfg Hname Hne Hpath Hpe Hex.
  assert (Hw : match config_file w with
               | Some _ => w' = w
               | None =>
                 if path_exists w "." then
                   w' = holding w (Some bare_config) /\
                   config.config w' = (Ret bare_config, w')
                 else w' = w
               end).
  { pose proof (config_Raise_world _ _ _ Hcfg) as H.
    destruct (config_file w); [exact H|].
    destruct (path_exists w "."); [|exact H].
    split; [exact H|]. rewrite H. reflexivity. }
  repeat split; [| | | | |exact Hw];
    apply tools_call_Ret; unfold call_tool;
    cbn [String.eqb Ascii.eqb Bool.eqb]; unfold try_except at 1.
  - unfold handle_run_script. rewrite Hname. cbn [from_option id truthy].
    rewrite (str_truthy_true _ Hne).
    cbv beta iota delta [negb try_except bind executor.execute_script
                           config.get_script_config].
    now rewrite Hcfg.
  - unfold handle_list_scripts.
    cbv beta iota delta [try_except bind executor.list_available_scripts
                           config.list_scripts].
    now rewrite Hcfg.
  - unfold handle_get_script_info. rewrite Hname. cbn [from_option id truthy].
    rewrite (str_truthy_true _ Hne).
    cbv beta iota delta [negb try_except bind executor.get_script_info
                           config.get_script_config].
    now rewrite Hcfg.
  - unfold handle_get_working_directory.
    cbv beta iota delta [try_except bind]. now rewrite Hcfg.
  - unfold handle_set_working_directory. rewrite Hpath. cbn [from_option id truthy].
    rewrite (str_truthy_true _ Hpe).
    cbv beta iota delta [negb try_except bind os_path_exists assign_working_directory].
    rewrite Hex. cbv beta iota delta [negb]. now rewrite Hcfg.
Qed.

Lemma unloadable_configuration_is_reported_witness :
  tools_call "list_scripts" {[ "script_name" := PStr "hello" ]} Scenario.corrupt_world
  = (Result [Text "Error listing scripts: Failed to load configuration: Expecting value: line 1 column 1 (char 0)"],
     Scenario.corrupt_world) /\
  tools_call "get_working_directory" {[ "script_name" := PStr "hello" ]}
    Scenario.read_only_start
  = (Result [Text "Error getting working directory: [Errno 13] Permission denied: '.mcp-config.json'"],
     holding Scenario.read_only_start (Some bare_config)) /\
  tools_call "get_working_directory" ∅
    (holding Scenario.read_only_start (Some bare_config))
  = (Result [Text "Current working directory: ."],
     holding Scenario.read_only_start (Some bare_config)).
Proof.
  assert (H1 : "hello" <> "") by discriminate.
  assert (H2 : "/tmp" <> "") by discriminate.
  split; [|split; [|reflexivity]].
  - exact (proj1 (proj2 (unloadable_configuration_is_reported
                           {[ "script_name" := PStr "hello" ]} {[ "path" := PStr "/tmp" ]}
                           "hello" "/tmp" Scenario.corrupt_world _ _
                           eq_refl eq_refl H1 eq_refl H2 eq_refl))).
  - exact (proj1 (proj2 (proj2 (proj2 (unloadable_configuration_is_reported
                           {[ "script_name" := PStr "hello" ]} {[ "path" := PStr "/tmp" ]}
                           "hello" "/tmp" Scenario.read_only_start _ _
                           eq_refl eq_refl H1 eq_refl H2 eq_refl))))).
Defined.

(** X20: [reload_config] with a configuration file succeeds exactly
    when the file is valid: its working directory, if given, exists,
    and so does the path of every script that is left once a repeated
    name has kept only its last declaration.  Then the manager holds
    the configuration built from the file, whatever it held before;
    otherwise the answer carries the failure text and the manager
    holds nothing. *)
Theorem reload_config_installs_the_file (args : gmap string value) w d :
  config_file w = Some (ConfigJson d) ->
  if config_valid w d then
    tools_call "reload_config" args w
    = (Result [Text "Configuration reloaded successfully"],
       holding w (Some (config_of d)))
  else
    exists msg,
      tools_call "reload_config" args w
      = (Result [Text ("Error reloading configuration: Failed to load configuration: "
                       +:+ msg)],
         holding w None).
Proof.
  intros Hfile.
  pose proof (load_config_parsed (holding w None) d Hfile) as Hload.
  change (config_valid (holding w None) d) with (config_valid w d) in Hload.
  destruct (config_valid w d).
  - apply tools_call_Ret. unfold call_tool. cbn [String.eqb Ascii.eqb Bool.eqb].
    cbv beta iota delta [try_except handle_reload_config bind config.reload_config
                           config.set__config].
    change (set_manager w {| config_path := config_path (manager w); _config := None |})
      with (holding w None).
    rewrite Hload. reflexivity.
  - destruct Hload as [msg Hload]. exists msg.
    apply tools_call_Ret. unfold call_tool. cbn [String.eqb Ascii.eqb Bool.eqb].
    cbv beta iota delta [try_except handle_reload_config bind config.reload_config
                           config.set__config].
    change (set_manager w {| config_path := config_path (manager w); _config := None |})
      with (holding w None).
    rewrite Hload. reflexivity.
Qed.

Lemma reload_config_installs_the_file_witness :
  config_file Sample.overridden_world = Some (ConfigJson Sample.file) /\
  MCPConfig.working_directory
    (default bare_config (_config (manager Sample.overridden_world))) = "/tmp" /\
  tools_call "reload_config" ∅ Sample.overridden_world
  = (Result [Text "Configuration reloaded successfully"],
     holding Sample.overridden_world (Some Sample.loaded)).
Proof.
  split; [reflexivity|]. split; [reflexivity|].
  exact (reload_config_installs_the_file ∅ Sample.overridden_world Sample.file eq_refl).
Defined.

End InformationProperties.
